(** * Mumsy braiding studio: booking, payment webhook and reminder handlers

    A shallow embedding of [functions/index.js]: the validator helpers,
    the retry-wrapped Twilio senders, [createBooking], [paystackWebhook]
    and [sendFiveHourReminders], followed by the properties proved about
    them.

    Conventions of the embedding.
    - A JavaScript string is the list of its UTF-16 code units.
    - A function that may throw returns a [result]; asynchronous code is
      sequential state passing over a [World] (the [bookings] collection
      and the trace of outbound effects): every [await] in the handlers is
      immediately awaited, so a single request is a sequential program.
    - Services the handlers call but do not implement (the HMAC of
      [crypto], the Twilio and Paystack HTTP APIs, Firestore's automatic
      document ids and its reading of a document path, the rounding of a
      price to cents, the environment variables) are the fields of an
      environment record [Env] every handler takes.
    - [console.error] and [console.log] output is not modelled. *)

From Stdlib Require Import QArith Qround.
From stdpp Require Import gmap strings list fin_maps.

Local Open Scope Z_scope.
Local Open Scope list_scope.

(** ** JavaScript strings *)

Module Js.

(** One UTF-16 code unit. *)
Definition unit16 := N.

Definition str := list unit16.

(** The string of an ASCII literal. *)
Definition lit (s : string) : str :=
  map Ascii.N_of_ascii (String.list_ascii_of_string s).

(** [s.startsWith(p)] *)
Fixpoint startsWith (p s : str) : bool :=
  match p, s with
  | [], _ => true
  | _ :: _, [] => false
  | a :: p', b :: s' => (a =? b)%N && startsWith p' s'
  end.

(** [s.slice(1)] *)
Definition slice1 (s : str) : str := tail s.

(** [s === t] on strings. *)
Definition eqb (s t : str) : bool := bool_decide (s = t).

(** Truthiness of a possibly [undefined] string: [undefined] and the
    empty string are falsy. *)
Definition truthy (v : option str) : bool :=
  match v with
  | Some (_ :: _) => true
  | _ => false
  end.

(** A scalar JSON value, as the [price] of a request holds one. A number
    is given by the rational value of its double. (Arrays and objects are
    left out.) *)
Inductive value : Type :=
| Null
| Bool (b : bool)
| Num (q : Q)
| Str (s : str).

(** Truthiness of a possibly [undefined] JSON value: [undefined], [null],
    [false], [0] and the empty string are falsy. *)
Definition truthyValue (v : option value) : bool :=
  match v with
  | None | Some Null => false
  | Some (Bool b) => b
  | Some (Num q) => negb (Qnum q =? 0)
  | Some (Str s) => match s with [] => false | _ => true end
  end.

End Js.

(** [js "abc"] is the JavaScript string literal ["abc"]. *)
Abbreviation js := Js.lit.

(** ** Regular expressions used by the validators

    Matchers in continuation style: [m k s] holds when a prefix of [s]
    matches [m] and the rest satisfies [k]. *)

Module Re.

Definition matcher := (Js.str → bool) → Js.str → bool.

(** [\d] *)
Definition digit (c : Js.unit16) : bool := (48 <=? c)%N && (c <=? 57)%N.

(** [\D] *)
Definition nonDigit (c : Js.unit16) : bool := negb (digit c).

(** [\s]: the ECMAScript white space and line terminator code points. *)
Definition space (c : Js.unit16) : bool :=
  ((9 <=? c)%N && (c <=? 13)%N)
  || (c =? 32)%N || (c =? 160)%N || (c =? 5760)%N
  || ((8192 <=? c)%N && (c <=? 8202)%N)
  || (c =? 8232)%N || (c =? 8233)%N || (c =? 8239)%N
  || (c =? 8287)%N || (c =? 12288)%N || (c =? 65279)%N.

(** [[^\s@]] *)
Definition notSpaceAt (c : Js.unit16) : bool :=
  negb (space c || (c =? 64)%N).

(** [$] (no multiline flag) *)
Definition eos (s : Js.str) : bool :=
  match s with [] => true | _ => false end.

(** A literal code unit. *)
Definition chr (c : Js.unit16) : matcher := fun k s =>
  match s with
  | c' :: s' => (c' =? c)%N && k s'
  | [] => false
  end.

(** [cls+] *)
Fixpoint plus (cls : Js.unit16 → bool) (k : Js.str → bool) (s : Js.str)
  : bool :=
  match s with
  | [] => false
  | c :: s' => cls c && (plus cls k s' || k s')
  end.

(** [cls{n}] *)
Fixpoint exactly (cls : Js.unit16 → bool) (n : nat)
    (k : Js.str → bool) (s : Js.str) : bool :=
  match n with
  | O => k s
  | S n' =>
      match s with
      | c :: s' => cls c && exactly cls n' k s'
      | [] => false
      end
  end.

(** [cls{0,n}] *)
Fixpoint atMost (cls : Js.unit16 → bool) (n : nat)
    (k : Js.str → bool) (s : Js.str) : bool :=
  match n with
  | O => k s
  | S n' =>
      match s with
      | c :: s' => (cls c && atMost cls n' k s') || k s
      | [] => k s
      end
  end.

(** [cls{lo,hi}] *)
Definition between (cls : Js.unit16 → bool) (lo hi : nat) : matcher :=
  fun k => exactly cls lo (atMost cls (hi - lo) k).

(** [s.replace(/cls/g, "")] *)
Definition removeAll (cls : Js.unit16 → bool) (s : Js.str) : Js.str :=
  List.filter (fun c => negb (cls c)) s.

End Re.

(** ** Thrown values and results *)

Inductive exn : Type :=
| Error (message : Js.str)   (* [new Error(message)] *)
| Undefined.                 (* [throw undefined] *)

Inductive result (A : Type) : Type :=
| Ok (a : A)
| Throw (e : exn).
Arguments Ok {A} a.
Arguments Throw {A} e.

(** ** Validator *)

(** [/^\d{11,15}$/.test(p)] *)
Definition phoneRe (p : Js.str) : bool :=
  Re.between Re.digit 11 15 Re.eos p.

(** [/^[^\s@]+@[^\s@]+\.[^\s@]+$/.test(email)] *)
Definition emailRe (email : Js.str) : bool :=
  Re.plus Re.notSpaceAt
    (Re.chr 64%N (Re.plus Re.notSpaceAt
       (Re.chr 46%N (Re.plus Re.notSpaceAt Re.eos)))) email.

Definition validatePhone (phone : Js.str) : result Js.str :=
  let p := Re.removeAll Re.nonDigit phone in
  let p := if Js.startsWith (js "0") p then (js "27") ++ Js.slice1 p else p in
  if negb (phoneRe p) then Throw (Error (js "Invalid phone number"))
  else Ok ((js "+") ++ p).

Definition validateEmail (email : Js.str) : result Js.str :=
  if negb (emailRe email) then Throw (Error (js "Invalid email address"))
  else Ok email.

(** Phone normalization as the specification words it: keep the digits,
    turn a leading ["0"] into ["27"], demand 11 to 15 digits, prepend
    ["+"]. *)
Definition normalizePhone (raw : Js.str) : result Js.str :=
  let digits := List.filter Re.digit raw in
  let p := match digits with
           | c :: rest => if (c =? 48)%N then js "27" ++ rest else digits
           | [] => digits
           end in
  if bool_decide (11 ≤ length p ≤ 15)%nat then Ok (js "+" ++ p)
  else Throw (Error (js "Invalid phone number")).

Definition allDigits (s : Js.str) : Prop :=
  Forall (fun c => Re.digit c = true) s.

(** The string the length test of [validatePhone] is applied to. *)
Definition trunk (phone : Js.str) : Js.str :=
  let p := Re.removeAll Re.nonDigit phone in
  if Js.startsWith (js "0") p then js "27" ++ Js.slice1 p else p.

(** ** Data model *)

(** A document of the [bookings] collection. The intake fields are written
    by [createBooking]; the remaining ones are absent ([None]) until some
    handler, or the studio's back office, writes them. *)
Module Booking.

Inductive Status := Pending | Accepted.

Inductive PaymentStatus := Unpaid | Paid.

Record t := {
  style : Js.str;
  length : Js.str;
  price : Js.value;
  clientName : Js.str;
  clientPhone : Js.str;
  clientEmail : Js.str;
  date : Js.str;
  time : Js.str;
  method : option Js.str;
  status : Status;
  paymentStatus : PaymentStatus;
  createdAt : option Z;
  verified : option bool;
  depositPaid : option Q;
  receiptEmailSent : option bool;
  reminderSent : option bool;
  reminderAt : option Z;
}.

(** The update object of the webhook transaction:
    [{paymentStatus: "Paid", verified: true, depositPaid: amount / 100,
      status: "Accepted", receiptEmailSent: false}]. *)
Definition markPaid (amount : Z) (b : t) : t :=
  {| style := style b; length := length b; price := price b;
     clientName := clientName b; clientPhone := clientPhone b;
     clientEmail := clientEmail b; date := date b; time := time b;
     method := method b;
     status := Accepted;
     paymentStatus := Paid;
     createdAt := createdAt b;
     verified := Some true;
     depositPaid := Some (amount # 100)%Q;
     receiptEmailSent := Some false;
     reminderSent := reminderSent b;
     reminderAt := reminderAt b |}.

(** The update object of the reminder sweep: [{reminderSent: true}]. *)
Definition markReminded (b : t) : t :=
  {| style := style b; length := length b; price := price b;
     clientName := clientName b; clientPhone := clientPhone b;
     clientEmail := clientEmail b; date := date b; time := time b;
     method := method b;
     status := status b;
     paymentStatus := paymentStatus b;
     createdAt := createdAt b;
     verified := verified b;
     depositPaid := depositPaid b;
     receiptEmailSent := receiptEmailSent b;
     reminderSent := Some true;
     reminderAt := reminderAt b |}.

Definition isPaid (b : t) : bool :=
  match paymentStatus b with Paid => true | Unpaid => false end.

Definition isAccepted (b : t) : bool :=
  match status b with Accepted => true | Pending => false end.

End Booking.

(** The argument of [twilioClient().messages.create]. *)
Module Message.

Record t := { body : Js.str; from : Js.str; to : Js.str }.

End Message.

(** The request body and the response of Paystack's
    [transaction/initialize]. *)
Module Paystack.

Record init := { email : Js.str; amount : Js.value; bookingId : Js.str }.

Record response := { authorization_url : Js.str }.

End Paystack.

(** The [data] of a [createBooking] call; an absent field is [None]. *)
Module BookingData.

Record t := {
  style : option Js.str;
  length : option Js.str;
  price : option Js.value;
  clientName : option Js.str;
  clientPhone : option Js.str;
  date : option Js.str;
  time : option Js.str;
  method : option Js.str;
  email : option Js.str;
}.

End BookingData.

(** The parsed JSON body of a webhook delivery. *)
Module Event.

Record Metadata := { bookingId : option Js.str }.

Record Data := { metadata : option Metadata; amount : Z }.

Record t := { event : Js.str; data : option Data }.

End Event.

(** A webhook request: [req.method], the header
    [req.headers["x-paystack-signature"]], [req.rawBody] and [req.body]. *)
Module Request.

Record t := {
  method : Js.str;
  signature : option Js.str;
  rawBody : Js.str;
  body : Event.t;
}.

End Request.

(** What a handler does to the outside world, in order: a call of
    Twilio's [messages.create] with its outcome, a [sleep], a call of
    Paystack's [transaction/initialize] with its outcome, and the writes
    that reach the [bookings] collection (an [add], an [update] outside a
    transaction, the commit of a transaction with the documents it
    writes). *)
Inductive Effect : Type :=
| MessageCreate (m : Message.t) (r : result Js.str)
| Sleep (ms : Z)
| PaystackInit (rq : Paystack.init) (r : result Paystack.response)
| DocAdd (id : Js.str)
| DocUpdate (id : Js.str)
| TxCommit (ids : list Js.str).

Record World := {
  bookings : gmap Js.str Booking.t;
  trace : list Effect;
}.

(** The world after a write: the collection is replaced and the write is
    recorded. *)
Definition written (e : Effect) (s : gmap Js.str Booking.t) (w : World)
  : World :=
  {| bookings := s; trace := trace w ++ [e] |}.

Definition emit (e : Effect) (w : World) : World :=
  {| bookings := bookings w; trace := trace w ++ [e] |}.

(** ** Computations: state passing with exceptions *)

Definition M (A : Type) : Type := World → result A * World.

Definition ret {A} (a : A) : M A := fun w => (Ok a, w).

Definition throw {A} (e : exn) : M A := fun w => (Throw e, w).

Definition bind {A B} (c : M A) (k : A → M B) : M B := fun w =>
  match c w with
  | (Ok a, w') => k a w'
  | (Throw e, w') => (Throw e, w')
  end.

(** [try { c } catch (err) { h(err) }] *)
Definition tryCatch {A} (c : M A) (h : exn → M A) : M A := fun w =>
  match c w with
  | (Ok a, w') => (Ok a, w')
  | (Throw e, w') => h e w'
  end.

(** Lifting of a pure function that may throw. *)
Definition lift {A} (r : result A) : M A := fun w => (r, w).

Notation "'let*' x ':=' c 'in' k" := (bind c (fun x => k))
  (at level 10, x name, c at level 100, k at level 200).

(** ** The handlers of [functions/index.js] *)

Definition TWILIO_WHATSAPP : Js.str := js "whatsapp:+14155238886".

(** What [db.collection("bookings").doc(name)] refers to: a document of
    the collection, or (for a longer path) a document that is not in
    it. *)
Inductive DocRef : Type :=
| InBookings (id : Js.str)
| Elsewhere.

(** The services the handlers call but do not implement. *)
Record Env := {
  (** [process.env.PAYSTACK_SECRET] and [process.env.TWILIO_SMS]. *)
  PAYSTACK_SECRET : Js.str;
  TWILIO_SMS : Js.str;
  (** [crypto.createHmac("sha512", key).update(data).digest("hex")]. *)
  hmacSha512Hex : Js.str → Js.str → Js.str;
  (** The outcome of one call of Twilio's [messages.create], which may
      depend on everything that happened before: the message id, or the
      error the promise rejects with. *)
  twilioCreate : list Effect → Message.t → result Js.str;
  (** The outcome of [axios.post] to Paystack's
      [transaction/initialize]. *)
  paystackInitialize :
    list Effect → Paystack.init → result Paystack.response;
  (** The document id Firestore's [add] picks. *)
  autoId : gmap Js.str Booking.t → Js.str;
  (** [db.collection("bookings").doc(name)]: the reference, or the error
      the SDK throws when [name] is not a document path. *)
  docRef : Js.str → result DocRef;
  (** [Math.round(price * 100)], as it is serialized into the request
      ([null] when it is not a finite number). *)
  priceInCents : Js.value → Js.value;
}.

Section Handlers.

Variable env : Env.

(** *** Helpers *)

(** [const sleep = (ms) => new Promise((r) => setTimeout(r, ms))] *)
Definition sleep (ms : Z) : M unit := fun w => (Ok tt, emit (Sleep ms) w).

(** The loop of [sendWithRetry], entered with counter [i], [remaining]
    iterations to go ([remaining = attempts + 1 - i]) and the current
    value of [lastErr]. *)
Fixpoint sendWithRetryFrom {A} (sendFn : M A) (attempts : nat)
    (i remaining : nat) (lastErr : exn) : M A :=
  match remaining with
  | O => throw lastErr
  | S remaining' =>
      tryCatch sendFn (fun err =>
        let* _ := (if (i <? attempts)%nat then sleep (2 ^ Z.of_nat i * 500)
                   else ret tt) in
        sendWithRetryFrom sendFn attempts (S i) remaining' err)
  end.

Definition sendWithRetry {A} (sendFn : M A) (attempts : nat) : M A :=
  sendWithRetryFrom sendFn attempts 1 attempts Undefined.

(** [twilioClient().messages.create(m)] *)
Definition messagesCreate (m : Message.t) : M Js.str := fun w =>
  let r := twilioCreate env (trace w) m in
  (r, emit (MessageCreate m r) w).

Definition sendSms (phone message : Js.str) : M Js.str :=
  sendWithRetry
    (messagesCreate
       {| Message.body := message;
          Message.from := TWILIO_SMS env;
          Message.to := phone |}) 3.

Definition sendWhatsApp (phone message : Js.str) : M Js.str :=
  sendWithRetry
    (messagesCreate
       {| Message.body := message;
          Message.from := TWILIO_WHATSAPP;
          Message.to := js "whatsapp:" ++ phone |}) 3.

(** The branch both handlers take on [booking.method]:
    [if (booking.method === "whatsapp") await sendWhatsApp(...);
     else await sendSms(...);] *)
Definition sendByMethod (booking : Booking.t) (message : Js.str)
  : M Js.str :=
  if bool_decide (Booking.method booking = Some (js "whatsapp"))
  then sendWhatsApp (Booking.clientPhone booking) message
  else sendSms (Booking.clientPhone booking) message.

(** *** Firestore *)

(** The error with which the SDK refuses a document whose field [field]
    is [undefined] ([ignoreUndefinedProperties] is never set). *)
Definition undefinedValueError (field : Js.str) : exn :=
  Error (js "Value for argument " ++ [34%N] ++ js "data" ++ [34%N]
         ++ js " is not a valid Firestore document. Cannot use "
         ++ [34%N] ++ js "undefined" ++ [34%N]
         ++ js " as a Firestore value (found in field "
         ++ [34%N] ++ field ++ [34%N]
         ++ js "). If you want to ignore undefined values, enable "
         ++ js "`ignoreUndefinedProperties`.").

(** [db.collection("bookings").add(b)]; the result is the new id. Of the
    keys of the object [createBooking] passes, only [method] can be
    [undefined]; the SDK then throws before anything is written. *)
Definition collectionAdd (b : Booking.t) : M Js.str := fun w =>
  match Booking.method b with
  | None => (Throw (undefinedValueError (js "method")), w)
  | Some _ =>
      let id := autoId env (bookings w) in
      (Ok id, written (DocAdd id) (<[id := b]> (bookings w)) w)
  end.

(** [doc.ref.update(fields)]: rejects when the document does not exist. *)
Definition docUpdate (id : Js.str) (fields : Booking.t → Booking.t)
  : M unit := fun w =>
  match bookings w !! id with
  | Some b =>
      (Ok tt, written (DocUpdate id) (<[id := fields b]> (bookings w)) w)
  | None => (Throw (Error (js "NOT_FOUND")), w)
  end.

(** [(await tx.get(ref)).data()]: [None] is [undefined]. Only the
    [bookings] collection holds documents. *)
Definition txGet (ref : DocRef) : M (option Booking.t) := fun w =>
  (Ok match ref with
      | InBookings id => bookings w !! id
      | Elsewhere => None
      end, w).

(** A write staged by [tx.update(ref, fields)]. *)
Definition Write : Type := Js.str * (Booking.t → Booking.t).

(** The writes [tx.update(ref, fields)] stages. *)
Definition txUpdate (ref : DocRef) (fields : Booking.t → Booking.t)
  : list Write :=
  match ref with
  | InBookings id => [(id, fields)]
  | Elsewhere => []
  end.

Definition applyWrite (s : gmap Js.str Booking.t) (wr : Write)
  : gmap Js.str Booking.t :=
  alter wr.2 wr.1 s.

(** [db.runTransaction(updateFunction)]. The update function returns the
    writes it staged with [tx.update]; they reach the store only when the
    function returns normally. When it throws, the transaction is aborted:
    nothing is written and the error is rethrown. (Firestore's re-running
    of the function under contention is not modelled: one request runs
    alone.) *)
Definition runTransaction (updateFunction : M (list Write)) : M unit :=
  fun w =>
  match updateFunction w with
  | (Ok writes, w') =>
      (Ok tt, written (TxCommit writes.*1)
                (foldl applyWrite (bookings w') writes) w')
  | (Throw e, w') => (Throw e, w')
  end.

(** [for (const x of xs) { body(x) }] *)
Fixpoint forOf {A} (xs : list A) (body : A → M unit) : M unit :=
  match xs with
  | [] => ret tt
  | x :: xs' => let* _ := body x in forOf xs' body
  end.

(** *** createBooking *)

Definition get (v : option Js.str) : Js.str := default [] v.

Definition missingFields (d : BookingData.t) : bool :=
  negb (Js.truthy (BookingData.style d))
  || negb (Js.truthy (BookingData.length d))
  || negb (Js.truthyValue (BookingData.price d))
  || negb (Js.truthy (BookingData.clientName d))
  || negb (Js.truthy (BookingData.clientPhone d))
  || negb (Js.truthy (BookingData.date d))
  || negb (Js.truthy (BookingData.time d))
  || negb (Js.truthy (BookingData.email d)).

(** [axios.post("https://api.paystack.co/transaction/initialize", rq, _)] *)
Definition axiosPost (rq : Paystack.init) : M Paystack.response := fun w =>
  let r := paystackInitialize env (trace w) rq in
  (r, emit (PaystackInit rq r) w).

(** [now] is the value of [FieldValue.serverTimestamp()]. The result is
    the [authorization_url] of the returned object. *)
Definition createBooking (now : Z) (d : BookingData.t) : M Js.str :=
  if missingFields d then throw (Error (js "Missing required fields"))
  else
    let price := default Js.Null (BookingData.price d) in
    let* clientPhone := lift (validatePhone (get (BookingData.clientPhone d))) in
    let* clientEmail := lift (validateEmail (get (BookingData.email d))) in
    let* bookingId :=
      collectionAdd
        {| Booking.style := get (BookingData.style d);
           Booking.length := get (BookingData.length d);
           Booking.price := price;
           Booking.clientName := get (BookingData.clientName d);
           Booking.clientPhone := clientPhone;
           Booking.clientEmail := clientEmail;
           Booking.date := get (BookingData.date d);
           Booking.time := get (BookingData.time d);
           Booking.method := BookingData.method d;
           Booking.status := Booking.Pending;
           Booking.paymentStatus := Booking.Unpaid;
           Booking.createdAt := Some now;
           Booking.verified := None;
           Booking.depositPaid := None;
           Booking.receiptEmailSent := None;
           Booking.reminderSent := None;
           Booking.reminderAt := None |} in
    let* response :=
      axiosPost
        {| Paystack.email := get (BookingData.email d);
           Paystack.amount := priceInCents env price;
           Paystack.bookingId := bookingId |} in
    ret (Paystack.authorization_url response).

(** *** paystackWebhook *)

Definition confirmationMessage (booking : Booking.t) : Js.str :=
  [9989%N] ++ js " Booking confirmed!" ++ [10%N]
  ++ js "Hi " ++ Booking.clientName booking ++ js ", your "
  ++ Booking.style booking ++ js " (" ++ Booking.length booking
  ++ js ") appointment is confirmed." ++ [10%N]
  ++ [55357%N; 56517%N] ++ js " " ++ Booking.date booking ++ [10%N]
  ++ [55357%N; 56658%N] ++ js " " ++ Booking.time booking.

(** The function passed to [db.runTransaction] by the webhook. *)
Definition confirmPayment (bookingRef : DocRef) (amount : Z)
  : M (list Write) :=
  let* snap := txGet bookingRef in
  match snap with
  | None => ret []
  | Some booking =>
      if Booking.isPaid booking then ret []
      else
        let staged := txUpdate bookingRef (Booking.markPaid amount) in
        let* _ := sendByMethod booking (confirmationMessage booking) in
        ret staged
  end.

(** [event.data?.metadata?.bookingId] *)
Definition eventBookingId (e : Event.t) : option Js.str :=
  d ← Event.data e; m ← Event.metadata d; Event.bookingId m.

(** The body of the handler's [try] block; the result is the status code
    given to [res.sendStatus]. *)
Definition webhookTry (req : Request.t) : M Z :=
  if negb (Js.eqb (Request.method req) (js "POST")) then ret 405
  else if negb (Js.truthy (Request.signature req)) then ret 401
  else
    let hash :=
      hmacSha512Hex env (PAYSTACK_SECRET env) (Request.rawBody req) in
    if negb (Js.eqb hash (get (Request.signature req))) then ret 403
    else
      let event := Request.body req in
      if negb (Js.eqb (Event.event event) (js "charge.success")) then ret 200
      else
        let bookingId := eventBookingId event in
        if negb (Js.truthy bookingId) then ret 400
        else
          let* bookingRef := lift (docRef env (get bookingId)) in
          let amount := default 0 (Event.amount <$> Event.data event) in
          let* _ := runTransaction (confirmPayment bookingRef amount) in
          ret 200.

Definition paystackWebhook (req : Request.t) (w : World) : Z * World :=
  match webhookTry req w with
  | (Ok code, w') => (code, w')
  | (Throw err, w') => (500, w')
  end.

(** *** sendFiveHourReminders *)

Definition reminderMessage (booking : Booking.t) : Js.str :=
  [9200%N] ++ js " Reminder" ++ [10%N]
  ++ js "Hi " ++ Booking.clientName booking ++ js ", your "
  ++ Booking.style booking ++ js " (" ++ Booking.length booking
  ++ js ") appointment is in 5 hours." ++ [10%N]
  ++ [55357%N; 56517%N] ++ js " " ++ Booking.date booking ++ [10%N]
  ++ [55357%N; 56658%N] ++ js " " ++ Booking.time booking.

(** The query
    [where("status","==","Accepted").where("reminderSent","==",false)
     .where("reminderAt","<=",now)] on one document. *)
Definition due (now : Z) (b : Booking.t) : bool :=
  Booking.isAccepted b
  && bool_decide (Booking.reminderSent b = Some false)
  && match Booking.reminderAt b with
     | Some t => t <=? now
     | None => false
     end.

(** [snapshot.docs]: the matching documents, each with its id and the data
    it had when the query ran. *)
Definition queryDue (now : Z) (s : gmap Js.str Booking.t)
  : list (Js.str * Booking.t) :=
  List.filter (fun doc => due now doc.2) (map_to_list s).

(** One iteration of the loop over [snapshot.docs]. *)
Definition remindOne (doc : Js.str * Booking.t) : M unit :=
  let booking := doc.2 in
  tryCatch
    (let* _ := sendByMethod booking (reminderMessage booking) in
     docUpdate doc.1 Booking.markReminded)
    (fun err => ret tt).

Definition sendFiveHourReminders (now : Z) : M unit := fun w =>
  forOf (queryDue now (bookings w)) remindOne w.

End Handlers.

(** ** Reading a trace *)

(** The effects a computation added when it took [w] to [w']. *)
Definition newEffects (w w' : World) : list Effect :=
  drop (length (trace w)) (trace w').

(** A message Twilio accepted. *)
Definition isDelivered (e : Effect) : bool :=
  match e with
  | MessageCreate _ (Ok _) => true
  | _ => false
  end.

Definition deliveries (l : list Effect) : nat :=
  length (List.filter isDelivered l).

Definition isCommit (e : Effect) : bool :=
  match e with
  | TxCommit _ => true
  | _ => false
  end.

(** The effects of a retried send of [m]: attempts to create [m], and
    sleeps. *)
Definition isAttemptOf (m : Message.t) (e : Effect) : Prop :=
  match e with
  | MessageCreate m' _ => m' = m
  | Sleep _ => True
  | _ => False
  end.

(** The message [sendSms] creates, and the one [sendWhatsApp] creates. *)
Definition smsMessage (env : Env) (phone message : Js.str) : Message.t :=
  {| Message.body := message;
     Message.from := TWILIO_SMS env;
     Message.to := phone |}.

Definition whatsAppMessage (phone message : Js.str) : Message.t :=
  {| Message.body := message;
     Message.from := TWILIO_WHATSAPP;
     Message.to := js "whatsapp:" ++ phone |}.

(** The message [sendByMethod] creates for a booking. *)
Definition messageFor (env : Env) (booking : Booking.t) (message : Js.str)
  : Message.t :=
  if bool_decide (Booking.method booking = Some (js "whatsapp"))
  then whatsAppMessage (Booking.clientPhone booking) message
  else smsMessage env (Booking.clientPhone booking) message.

(** A write that reaches document [id]. *)
Definition writesTo (id : Js.str) (e : Effect) : bool :=
  match e with
  | DocAdd i | DocUpdate i => bool_decide (i = id)
  | TxCommit ids => bool_decide (id ∈ ids)
  | _ => false
  end.

Definition transitions (id : Js.str) (l : list Effect) : nat :=
  length (List.filter (writesTo id) l).

(** ** Well-formed deliveries *)

(** The HMAC the handler compares the signature header with. *)
Definition expectedSignature (env : Env) (req : Request.t) : Js.str :=
  hmacSha512Hex env (PAYSTACK_SECRET env) (Request.rawBody req).

(** A correctly signed [POST] of a [charge.success] event whose
    [bookingId] is the non-empty string [name], with amount [amount]. (The
    digest of a request is not the empty string: an empty header counts as
    absent.) *)
Definition signedCharge (env : Env) (req : Request.t) (name : Js.str)
    (amount : Z) : Prop :=
  Request.method req = js "POST"
  ∧ Request.signature req = Some (expectedSignature env req)
  ∧ expectedSignature env req ≠ []
  ∧ Event.event (Request.body req) = js "charge.success"
  ∧ Event.data (Request.body req)
    = Some {| Event.metadata := Some {| Event.bookingId := Some name |};
              Event.amount := amount |}
  ∧ name ≠ [].

(** A signed charge whose [bookingId] is [id], the name of a document of
    the collection. *)
Definition validCharge (env : Env) (req : Request.t) (id : Js.str)
    (amount : Z) : Prop :=
  signedCharge env req id amount ∧ docRef env id = Ok (InBookings id).

(** ** Reading a booking request *)

(** Some required field of the request is absent. *)
Definition someRequiredAbsent (d : BookingData.t) : Prop :=
  BookingData.style d = None ∨ BookingData.length d = None
  ∨ BookingData.price d = None ∨ BookingData.clientName d = None
  ∨ BookingData.clientPhone d = None ∨ BookingData.date d = None
  ∨ BookingData.time d = None ∨ BookingData.email d = None.

(** The request [d] with its [method] field replaced. *)
Definition withMethod (m : option Js.str) (d : BookingData.t)
  : BookingData.t :=
  {| BookingData.style := BookingData.style d;
     BookingData.length := BookingData.length d;
     BookingData.price := BookingData.price d;
     BookingData.clientName := BookingData.clientName d;
     BookingData.clientPhone := BookingData.clientPhone d;
     BookingData.date := BookingData.date d;
     BookingData.time := BookingData.time d;
     BookingData.method := m;
     BookingData.email := BookingData.email d |}.

(** The request Paystack receives for the request [d] stored as [id]. *)
Definition initFor (env : Env) (d : BookingData.t) (id : Js.str)
  : Paystack.init :=
  {| Paystack.email := get (BookingData.email d);
     Paystack.amount :=
       priceInCents env (default Js.Null (BookingData.price d));
     Paystack.bookingId := id |}.

(** An effect that, if it is a message, is a plain SMS to [phone]. *)
Definition viaSms (env : Env) (phone : Js.str) (e : Effect) : Prop :=
  match e with
  | MessageCreate m _ =>
      Message.from m = TWILIO_SMS env ∧ Message.to m = phone
  | _ => True
  end.

(** ** A concrete studio

    One environment and a few requests to run the handlers on. The digest
    is a stand-in (the handlers only compare digests for equality), the
    payment gateway always answers, and Twilio comes in three moods. *)
Module Scenario.

Definition digest (key data : Js.str) : Js.str := key ++ js ":" ++ data.

Definition twilioUp (history : list Effect) (m : Message.t)
  : result Js.str :=
  Ok (js "SM0001").

Definition twilioDown (history : list Effect) (m : Message.t)
  : result Js.str :=
  Throw (Error (js "ETIMEDOUT")).

Definition isCreate (e : Effect) : bool :=
  match e with
  | MessageCreate _ _ => true
  | _ => false
  end.

(** Rejects the first two messages it is asked to create. *)
Definition twilioFlaky (history : list Effect) (m : Message.t)
  : result Js.str :=
  if (length (List.filter isCreate history) <? 2)%nat
  then Throw (Error (js "ETIMEDOUT"))
  else Ok (js "SM0001").

Definition gateway (history : list Effect) (rq : Paystack.init)
  : result Paystack.response :=
  Ok {| Paystack.authorization_url :=
          js "https://checkout.paystack.com/" ++ Paystack.bookingId rq |}.

(** The segments of a path: its non-empty pieces between slashes. *)
Fixpoint segmentsFrom (current : Js.str) (path : Js.str) : list Js.str :=
  match path with
  | [] => match current with [] => [] | _ => [current] end
  | c :: path' =>
      if (c =? 47)%N
      then match current with
           | [] => segmentsFrom [] path'
           | _ => current :: segmentsFrom [] path'
           end
      else segmentsFrom (current ++ [c]) path'
  end.

Fixpoint doubleSlash (path : Js.str) : bool :=
  match path with
  | a :: (b :: _) as path' =>
      ((a =? 47)%N && (b =? 47)%N) || doubleSlash path'
  | _ => false
  end.

(** Document references as the SDK builds them: a path with "//" or with
    an even number of segments is refused; one segment names a document of
    the collection; more name a document elsewhere. *)
Definition reference (name : Js.str) : result DocRef :=
  if doubleSlash name
  then Throw (Error (js "Paths must not contain //."))
  else
    match segmentsFrom [] name with
    | [id] => Ok (InBookings id)
    | segments =>
        if Nat.even (length segments)
        then Throw (Error (js "Your path does not contain an even number of components."))
        else Ok Elsewhere
    end.

(** [Math.round(price * 100)] on a number, computed in exact arithmetic
    (which agrees with the doubles on the whole-number prices of this
    scenario); the scenario has no other prices. *)
Definition cents (price : Js.value) : Js.value :=
  match price with
  | Js.Num q => Js.Num (inject_Z (Qfloor (q * (100 # 1) + (1 # 2))))
  | _ => Js.Null
  end.

Definition studio (twilio : list Effect → Message.t → result Js.str)
  : Env :=
  {| PAYSTACK_SECRET := js "sk_test_1";
     TWILIO_SMS := js "+15005550006";
     hmacSha512Hex := digest;
     twilioCreate := twilio;
     paystackInitialize := gateway;
     autoId := fun s => replicate (S (size s)) 120%N;
     docRef := reference;
     priceInCents := cents |}.

Definition thandi : Booking.t :=
  {| Booking.style := js "Box braids";
     Booking.length := js "Long";
     Booking.price := Js.Num (850 # 1);
     Booking.clientName := js "Thandi";
     Booking.clientPhone := js "+27821234567";
     Booking.clientEmail := js "thandi@example.com";
     Booking.date := js "2025-03-01";
     Booking.time := js "10:00";
     Booking.method := Some (js "sms");
     Booking.status := Booking.Pending;
     Booking.paymentStatus := Booking.Unpaid;
     Booking.createdAt := Some 1000;
     Booking.verified := None;
     Booking.depositPaid := None;
     Booking.receiptEmailSent := None;
     Booking.reminderSent := None;
     Booking.reminderAt := None |}.

(** An accepted booking whose reminder is due from time 5000 on. *)
Definition lerato : Booking.t :=
  {| Booking.style := js "Cornrows";
     Booking.length := js "Medium";
     Booking.price := Js.Num (400 # 1);
     Booking.clientName := js "Lerato";
     Booking.clientPhone := js "+27731234567";
     Booking.clientEmail := js "lerato@example.com";
     Booking.date := js "2025-03-02";
     Booking.time := js "14:00";
     Booking.method := Some (js "whatsapp");
     Booking.status := Booking.Accepted;
     Booking.paymentStatus := Booking.Paid;
     Booking.createdAt := Some 2000;
     Booking.verified := Some true;
     Booking.depositPaid := Some (40000 # 100)%Q;
     Booking.receiptEmailSent := Some false;
     Booking.reminderSent := Some false;
     Booking.reminderAt := Some 5000 |}.

Definition b1 : Js.str := js "b1".

Definition b2 : Js.str := js "b2".

Definition world0 : World :=
  {| bookings := {[ b1 := thandi; b2 := lerato ]};
     trace := [] |}.

(** The [charge.success] event for booking [id], correctly signed. *)
Definition charge (id : Js.str) : Request.t :=
  let raw := js "charge.success " ++ id ++ js " 85000" in
  {| Request.method := js "POST";
     Request.signature := Some (digest (js "sk_test_1") raw);
     Request.rawBody := raw;
     Request.body :=
       {| Event.event := js "charge.success";
          Event.data :=
            Some {| Event.metadata :=
                      Some {| Event.bookingId := Some id |};
                    Event.amount := 85000 |} |} |}.

(** The same delivery with a signature made with another key. *)
Definition forged (id : Js.str) : Request.t :=
  {| Request.method := js "POST";
     Request.signature := Some (digest (js "guess") (Request.rawBody (charge id)));
     Request.rawBody := Request.rawBody (charge id);
     Request.body := Request.body (charge id) |}.

Definition intake : BookingData.t :=
  {| BookingData.style := Some (js "Box braids");
     BookingData.length := Some (js "Long");
     BookingData.price := Some (Js.Num (850 # 1));
     BookingData.clientName := Some (js "Thandi");
     BookingData.clientPhone := Some (js "082 123 4567");
     BookingData.date := Some (js "2025-03-01");
     BookingData.time := Some (js "10:00");
     BookingData.method := None;
     BookingData.email := Some (js "thandi@example.com") |}.

(** The same request with the notification method chosen. *)
Definition intakeSms : BookingData.t :=
  {| BookingData.style := Some (js "Box braids");
     BookingData.length := Some (js "Long");
     BookingData.price := Some (Js.Num (850 # 1));
     BookingData.clientName := Some (js "Thandi");
     BookingData.clientPhone := Some (js "082 123 4567");
     BookingData.date := Some (js "2025-03-01");
     BookingData.time := Some (js "10:00");
     BookingData.method := Some (js "sms");
     BookingData.email := Some (js "thandi@example.com") |}.

(** The same request again, with every field there and a price of 0. *)
Definition freeOfCharge : BookingData.t :=
  {| BookingData.style := Some (js "Box braids");
     BookingData.length := Some (js "Long");
     BookingData.price := Some (Js.Num (0 # 1));
     BookingData.clientName := Some (js "Thandi");
     BookingData.clientPhone := Some (js "082 123 4567");
     BookingData.date := Some (js "2025-03-01");
     BookingData.time := Some (js "10:00");
     BookingData.method := Some (js "sms");
     BookingData.email := Some (js "thandi@example.com") |}.

End Scenario.

(** ** Reading an email address *)

(** A non-empty run of code units that are neither white space nor
    ["@"]. *)
Definition atom (a : Js.str) : Prop :=
  a ≠ [] ∧ Forall (fun c => Re.notSpaceAt c = true) a.

(** [local@domain.tld], each part an [atom]. *)
Definition emailShape (s : Js.str) : Prop :=
  ∃ l d t, s = l ++ js "@" ++ d ++ js "." ++ t ∧ atom l ∧ atom d ∧ atom t.

(** The number of ["@"] in a string. *)
Definition countAt (s : Js.str) : nat :=
  length (List.filter (fun c => (c =? 64)%N) s).

(** ** Counting attempts and backoff *)

Definition isAttempt (e : Effect) : bool :=
  match e with
  | MessageCreate _ _ => true
  | _ => false
  end.

(** The number of calls of Twilio's [messages.create]. *)
Definition attemptsMade (l : list Effect) : nat :=
  length (List.filter isAttempt l).

(** The milliseconds spent in [sleep]. *)
Fixpoint slept (l : list Effect) : Z :=
  match l with
  | [] => 0
  | Sleep ms :: l' => ms + slept l'
  | _ :: l' => slept l'
  end.

(** An effect that, if it is a message, is a WhatsApp message to
    [phone]. *)
Definition viaWhatsApp (phone : Js.str) (e : Effect) : Prop :=
  match e with
  | MessageCreate m _ =>
      Message.from m = TWILIO_WHATSAPP
      ∧ Message.to m = js "whatsapp:" ++ phone
  | _ => True
  end.

(** ** Deliveries in sequence *)

(** [event.data.amount] of a delivery. *)
Definition eventAmount (req : Request.t) : Z :=
  default 0 (Event.amount <$> Event.data (Request.body req)).

(** The world after the webhook has handled the requests [reqs] one after
    the other. *)
Definition deliverAll (env : Env) (reqs : list Request.t) (w : World)
  : World :=
  foldl (fun w req => (paystackWebhook env req w).2) w reqs.

(** ** The document of a new booking *)

(** The document [createBooking] adds for the request [d] at server time
    [now], given the normalized phone [p] and the validated email [e]. *)
Definition storedBooking (now : Z) (d : BookingData.t) (p e : Js.str)
  : Booking.t :=
  {| Booking.style := get (BookingData.style d);
     Booking.length := get (BookingData.length d);
     Booking.price := default Js.Null (BookingData.price d);
     Booking.clientName := get (BookingData.clientName d);
     Booking.clientPhone := p;
     Booking.clientEmail := e;
     Booking.date := get (BookingData.date d);
     Booking.time := get (BookingData.time d);
     Booking.method := BookingData.method d;
     Booking.status := Booking.Pending;
     Booking.paymentStatus := Booking.Unpaid;
     Booking.createdAt := Some now;
     Booking.verified := None;
     Booking.depositPaid := None;
     Booking.receiptEmailSent := None;
     Booking.reminderSent := None;
     Booking.reminderAt := None |}.

(** ** Counting writes of the sweep *)

Definition isDocUpdate (e : Effect) : bool :=
  match e with
  | DocUpdate _ => true
  | _ => false
  end.

(** The number of [doc.ref.update] calls that reached the store. *)
Definition docUpdates (l : list Effect) : nat :=
  length (List.filter isDocUpdate l).

(** ** The older variants of the handlers

    The repository keeps earlier copies of [functions/index.js]. Two of
    them differ from it in how they notify and in what they do with a
    booking they cannot find; they are embedded here over the same world.
    Both sign the re-serialized body, [JSON.stringify(req.body)], rather
    than the raw one; [stringify] stands for that serialization. *)

(** A correctly signed [POST] of a [charge.success] event for booking
    [id] with amount [amount], as the older variants check it; [id] is the
    name of a document of the collection. *)
Definition validChargeJson (env : Env) (stringify : Event.t → Js.str)
    (req : Request.t) (id : Js.str) (amount : Z) : Prop :=
  Request.method req = js "POST"
  ∧ Request.signature req
    = Some (hmacSha512Hex env (PAYSTACK_SECRET env)
              (stringify (Request.body req)))
  ∧ Event.event (Request.body req) = js "charge.success"
  ∧ Event.data (Request.body req)
    = Some {| Event.metadata := Some {| Event.bookingId := Some id |};
              Event.amount := amount |}
  ∧ id ≠ []
  ∧ docRef env id = Ok (InBookings id).

(** The variant whose senders log a failure and go on. *)
Module Part002.

Section Handlers.

Variable env : Env.

Variable stringify : Event.t → Js.str.

(** [try { await client.messages.create(...) } catch (err) { log }] *)
Definition sendSms (phone message : Js.str) : M unit :=
  tryCatch
    (let* _ := messagesCreate env
                 {| Message.body := message;
                    Message.from := TWILIO_SMS env;
                    Message.to := phone |} in
     ret tt)
    (fun err => ret tt).

Definition sendWhatsApp (phone message : Js.str) : M unit :=
  tryCatch
    (let* _ := messagesCreate env
                 {| Message.body := message;
                    Message.from := TWILIO_WHATSAPP;
                    Message.to := js "whatsapp:" ++ phone |} in
     ret tt)
    (fun err => ret tt).

(** The branch the webhook and the sweep of this file take on
    [booking.method]. *)
Definition sendByMethod (booking : Booking.t) (message : Js.str) : M unit :=
  if bool_decide (Booking.method booking = Some (js "whatsapp"))
  then sendWhatsApp (Booking.clientPhone booking) message
  else sendSms (Booking.clientPhone booking) message.

(** The templates of this file, with the code units the file has. *)
Definition confirmationMessage (booking : Booking.t) : Js.str :=
  [226%N; 339%N; 8230%N] ++ js " Booking confirmed!" ++ [10%N]
  ++ js "Hi " ++ Booking.clientName booking ++ js ", your "
  ++ Booking.style booking ++ js " (" ++ Booking.length booking
  ++ js ") appointment is confirmed." ++ [10%N]
  ++ [240%N; 376%N; 8220%N; 8230%N] ++ js " " ++ Booking.date booking
  ++ [10%N]
  ++ [240%N; 376%N; 8226%N; 8217%N] ++ js " " ++ Booking.time booking.

Definition reminderMessage (booking : Booking.t) : Js.str :=
  [226%N; 176%N] ++ js " Reminder" ++ [10%N]
  ++ js "Hi " ++ Booking.clientName booking ++ js ", your "
  ++ Booking.style booking ++ js " (" ++ Booking.length booking
  ++ js ") appointment is in 5 hours." ++ [10%N]
  ++ [240%N; 376%N; 8220%N; 8230%N] ++ js " " ++ Booking.date booking
  ++ [10%N]
  ++ [240%N; 376%N; 8226%N; 8217%N] ++ js " " ++ Booking.time booking.

(** The function passed to [db.runTransaction]. *)
Definition confirmPayment (bookingRef : DocRef) (amount : Z)
  : M (list Write) :=
  let* snap := txGet bookingRef in
  match snap with
  | None => throw (Error (js "Booking not found"))
  | Some booking =>
      if Booking.isPaid booking then ret []
      else
        let staged := txUpdate bookingRef (Booking.markPaid amount) in
        let* _ := sendByMethod booking (confirmationMessage booking) in
        ret staged
  end.

(** The body of the handler's [try] block. Reading [metadata] of an
    absent [event.data] is a [TypeError]. *)
Definition webhookTry (req : Request.t) : M Z :=
  if negb (Js.eqb (Request.method req) (js "POST")) then ret 405
  else
    let hash :=
      hmacSha512Hex env (PAYSTACK_SECRET env)
        (stringify (Request.body req)) in
    if negb (bool_decide (Request.signature req = Some hash)) then ret 400
    else
      let event := Request.body req in
      if Js.eqb (Event.event event) (js "charge.success") then
        match Event.data event with
        | None => throw (Error (js "TypeError"))
        | Some transaction =>
            let bookingId :=
              m ← Event.metadata transaction; Event.bookingId m in
            if negb (Js.truthy bookingId) then ret 400
            else
              let* bookingRef := lift (docRef env (get bookingId)) in
              let* _ := runTransaction
                          (confirmPayment bookingRef
                             (Event.amount transaction)) in
              ret 200
        end
      else ret 200.

Definition paystackWebhook (req : Request.t) (w : World) : Z * World :=
  match webhookTry req w with
  | (Ok code, w') => (code, w')
  | (Throw err, w') => (500, w')
  end.

(** A document of the [reminderLogs] collection as the sweep builds it;
    [sentAt], which the server assigns, is left out. An absent [logMethod]
    is an [undefined] value. *)
Record ReminderLog := {
  logBookingId : Js.str;
  logClientName : Js.str;
  logPhone : Js.str;
  logMethod : option Js.str;
  logType : Js.str;
}.

(** The world together with the [reminderLogs] collection. *)
Record Studio := {
  world : World;
  reminderLogs : list ReminderLog;
}.

(** [db.collection("reminderLogs").add(log)]: the SDK refuses a document
    with an [undefined] field. *)
Definition logsAdd (log : ReminderLog) (logs : list ReminderLog)
  : result (list ReminderLog) :=
  match logMethod log with
  | None => Throw (undefinedValueError (js "method"))
  | Some _ => Ok (logs ++ [log])
  end.

(** The documents of a snapshot whose log entry the store takes. *)
Definition loggable (doc : Js.str * Booking.t) : bool :=
  match Booking.method doc.2 with
  | Some _ => true
  | None => false
  end.

(** One iteration of the loop over [snapshot.docs]: send, log, mark; a
    throw anywhere ends the iteration. *)
Definition remindOne (doc : Js.str * Booking.t) (s : Studio) : Studio :=
  let booking := doc.2 in
  match sendByMethod booking (reminderMessage booking) (world s) with
  | (Throw _, w1) => {| world := w1; reminderLogs := reminderLogs s |}
  | (Ok _, w1) =>
      match logsAdd {| logBookingId := doc.1;
                       logClientName := Booking.clientName booking;
                       logPhone := Booking.clientPhone booking;
                       logMethod := Booking.method booking;
                       logType := js "5-hour" |} (reminderLogs s) with
      | Throw _ => {| world := w1; reminderLogs := reminderLogs s |}
      | Ok logs =>
          {| world := (docUpdate doc.1 Booking.markReminded w1).2;
             reminderLogs := logs |}
      end
  end.

Definition sendFiveHourReminders (now : Z) (s : Studio) : Studio :=
  foldl (fun s doc => remindOne doc s) s (queryDue now (bookings (world s))).

End Handlers.

End Part002.

(** The variant whose sender makes one attempt and lets the error out. *)
Module Part003.

Section Handlers.

Variable env : Env.

Variable stringify : Event.t → Js.str.

(** [sendMessage(phone, message, method = "sms")] *)
Definition sendMessage (phone message : Js.str) (method : option Js.str)
  : M unit :=
  if bool_decide (method = Some (js "whatsapp")) then
    let* _ := messagesCreate env
                {| Message.body := message;
                   Message.from := TWILIO_WHATSAPP;
                   Message.to := js "whatsapp:" ++ phone |} in
    ret tt
  else
    let* _ := messagesCreate env
                {| Message.body := message;
                   Message.from := TWILIO_SMS env;
                   Message.to := phone |} in
    ret tt.

(** The argument the v2 [onCall] gives its handler: the request object,
    whose [data] property holds the payload. *)
Record CallableRequest := { data : BookingData.t }.

(** [const { style, length, ..., email } = data], where the handler's
    parameter [data] is the request object: it has none of these
    properties, so every one of the nine is [undefined]. *)
Definition destructured (request : CallableRequest) : BookingData.t :=
  {| BookingData.style := None;
     BookingData.length := None;
     BookingData.price := None;
     BookingData.clientName := None;
     BookingData.clientPhone := None;
     BookingData.date := None;
     BookingData.time := None;
     BookingData.method := None;
     BookingData.email := None |}.

(** The body of this [createBooking] is the one of [functions/index.js],
    run on the destructured fields; it is wrapped in
    [try { ... } catch (err) { throw new Error("Could not start
    payment") }]. *)
Definition createBooking (now : Z) (request : CallableRequest)
  : M Js.str :=
  tryCatch (createBooking env now (destructured request))
    (fun err => throw (Error (js "Could not start payment"))).

(** The update object of this file: it has no [verified] field. *)
Definition markPaid (amount : Z) (b : Booking.t) : Booking.t :=
  {| Booking.style := Booking.style b;
     Booking.length := Booking.length b;
     Booking.price := Booking.price b;
     Booking.clientName := Booking.clientName b;
     Booking.clientPhone := Booking.clientPhone b;
     Booking.clientEmail := Booking.clientEmail b;
     Booking.date := Booking.date b;
     Booking.time := Booking.time b;
     Booking.method := Booking.method b;
     Booking.status := Booking.Accepted;
     Booking.paymentStatus := Booking.Paid;
     Booking.createdAt := Booking.createdAt b;
     Booking.verified := Booking.verified b;
     Booking.depositPaid := Some (amount # 100)%Q;
     Booking.receiptEmailSent := Some false;
     Booking.reminderSent := Booking.reminderSent b;
     Booking.reminderAt := Booking.reminderAt b |}.

Definition confirmPayment (bookingRef : DocRef) (amount : Z)
  : M (list Write) :=
  let* snap := txGet bookingRef in
  match snap with
  | None => throw (Error (js "Booking not found"))
  | Some booking =>
      if Booking.isPaid booking then ret []
      else
        let staged := txUpdate bookingRef (markPaid amount) in
        let* _ := sendMessage (Booking.clientPhone booking)
                    (confirmationMessage booking)
                    (Booking.method booking) in
        ret staged
  end.

(** Destructuring an absent [event.data] is a [TypeError]. *)
Definition webhookTry (req : Request.t) : M Z :=
  if negb (Js.eqb (Request.method req) (js "POST")) then ret 405
  else
    let hash :=
      hmacSha512Hex env (PAYSTACK_SECRET env)
        (stringify (Request.body req)) in
    if negb (bool_decide (Request.signature req = Some hash)) then ret 400
    else
      let event := Request.body req in
      if Js.eqb (Event.event event) (js "charge.success") then
        match Event.data event with
        | None => throw (Error (js "TypeError"))
        | Some data =>
            let bookingId :=
              m ← Event.metadata data; Event.bookingId m in
            if negb (Js.truthy bookingId) then ret 400
            else
              let* bookingRef := lift (docRef env (get bookingId)) in
              let* _ := runTransaction
                          (confirmPayment bookingRef
                             (Event.amount data)) in
              ret 200
        end
      else ret 200.

Definition paystackWebhook (req : Request.t) (w : World) : Z * World :=
  match webhookTry req w with
  | (Ok code, w') => (code, w')
  | (Throw err, w') => (500, w')
  end.

End Handlers.

End Part003.

(** ** The SMS relay of [sms-server/server.js] *)

Module SmsServer.

(** The answer of the relay: the status code and the [success] field of
    the JSON body. *)
Record Reply := { status : Z; success : bool }.

(** [app.post("/sendSMS", ...)]; [TWILIO_PHONE] is
    [process.env.TWILIO_PHONE], [phone] and [message] the fields of
    [req.body]. *)
Definition sendSMS (env : Env) (TWILIO_PHONE : Js.str)
    (phone message : option Js.str) (w : World) : Reply * World :=
  if negb (Js.truthy phone) || negb (Js.truthy message)
  then ({| status := 400; success := false |}, w)
  else
    match messagesCreate env
            {| Message.body := get message;
               Message.from := TWILIO_PHONE;
               Message.to := js "+" ++ get phone |} w with
    | (Ok _, w') => ({| status := 200; success := true |}, w')
    | (Throw _, w') => ({| status := 500; success := false |}, w')
    end.

End SmsServer.

(** ** More requests for the concrete studio *)

Module Replay.

(** A stand-in for [JSON.stringify] on event bodies. *)
Definition serialize (e : Event.t) : Js.str :=
  Event.event e ++ js "/" ++ default [] (eventBookingId e).

(** The [charge.success] event for booking [id], signed over the
    serialized body as the older variants expect. *)
Definition chargeJson (id : Js.str) : Request.t :=
  let body :=
    {| Event.event := js "charge.success";
       Event.data :=
         Some {| Event.metadata :=
                   Some {| Event.bookingId := Some id |};
                 Event.amount := 85000 |} |} in
  {| Request.method := js "POST";
     Request.signature :=
       Some (Scenario.digest (js "sk_test_1") (serialize body));
     Request.rawBody := js "";
     Request.body := body |}.

(** The booking request of the scenario with a phone number that is too
    short. *)
Definition shortPhone : BookingData.t :=
  {| BookingData.style := BookingData.style Scenario.intake;
     BookingData.length := BookingData.length Scenario.intake;
     BookingData.price := BookingData.price Scenario.intake;
     BookingData.clientName := BookingData.clientName Scenario.intake;
     BookingData.clientPhone := Some (js "12345");
     BookingData.date := BookingData.date Scenario.intake;
     BookingData.time := BookingData.time Scenario.intake;
     BookingData.method := BookingData.method Scenario.intake;
     BookingData.email := BookingData.email Scenario.intake |}.

(** The booking request of the scenario without a style. *)
Definition noStyle : BookingData.t :=
  {| BookingData.style := None;
     BookingData.length := BookingData.length Scenario.intake;
     BookingData.price := BookingData.price Scenario.intake;
     BookingData.clientName := BookingData.clientName Scenario.intake;
     BookingData.clientPhone := BookingData.clientPhone Scenario.intake;
     BookingData.date := BookingData.date Scenario.intake;
     BookingData.time := BookingData.time Scenario.intake;
     BookingData.method := BookingData.method Scenario.intake;
     BookingData.email := BookingData.email Scenario.intake |}.

(** The id Firestore gives to the first booking added to [world0], and
    the world after [createBooking] has run on the scenario's request. *)
Definition newId : Js.str := js "xxx".

Definition afterBooking : World :=
  (createBooking (Scenario.studio Scenario.twilioUp) 1000 Scenario.intakeSms
     Scenario.world0).2.

(** An accepted booking, due from time 5000 on, that carries no
    method. *)
Definition sipho : Booking.t :=
  {| Booking.style := js "Twists";
     Booking.length := js "Short";
     Booking.price := Js.Num (300 # 1);
     Booking.clientName := js "Sipho";
     Booking.clientPhone := js "+27741234567";
     Booking.clientEmail := js "sipho@example.com";
     Booking.date := js "2025-03-02";
     Booking.time := js "15:00";
     Booking.method := None;
     Booking.status := Booking.Accepted;
     Booking.paymentStatus := Booking.Paid;
     Booking.createdAt := Some 2500;
     Booking.verified := Some true;
     Booking.depositPaid := Some (30000 # 100)%Q;
     Booking.receiptEmailSent := Some false;
     Booking.reminderSent := Some false;
     Booking.reminderAt := Some 5000 |}.

Definition b3 : Js.str := js "b3".

Definition studio1 : Part002.Studio :=
  {| Part002.world :=
       {| bookings := {[ Scenario.b2 := Scenario.lerato; b3 := sipho ]};
          trace := [] |};
     Part002.reminderLogs := [] |}.

End Replay.

(** * Properties *)

(** ** Validator *)

Example validatePhone_local :
  validatePhone (js "082 123 4567") = Ok (js "+27821234567").
Proof. reflexivity. Qed.

Example validateEmail_ok : validateEmail (js "a@b.com") = Ok (js "a@b.com").
Proof. reflexivity. Qed.

Example validateEmail_bad :
  validateEmail (js "not-an-email")
  = Throw (Error (js "Invalid email address")).
Proof. reflexivity. Qed.

Lemma removeAll_nonDigit_filter s :
  Re.removeAll Re.nonDigit s = List.filter Re.digit s.
Proof.
  unfold Re.removeAll, Re.nonDigit.
  induction s as [|c s IH]; [done|].
  simpl. rewrite IH, negb_involutive. done.
Qed.

Lemma removeAll_nonDigit_allDigits s :
  allDigits (Re.removeAll Re.nonDigit s).
Proof.
  rewrite removeAll_nonDigit_filter. unfold allDigits.
  induction s as [|c s IH]; [constructor|].
  simpl. destruct (Re.digit c) eqn:E; [constructor|]; done.
Qed.

Lemma removeAll_nonDigit_id s :
  allDigits s → Re.removeAll Re.nonDigit s = s.
Proof.
  rewrite removeAll_nonDigit_filter.
  induction 1 as [|c s Hc _ IH]; [done|].
  simpl. by rewrite Hc, IH.
Qed.

Lemma atMost_digits n s :
  allDigits s → Re.atMost Re.digit n Re.eos s = bool_decide (length s ≤ n)%nat.
Proof.
  revert s. induction n as [|n IH]; intros s Hs.
  - destruct s; cbn [Re.atMost Re.eos length].
    + by rewrite bool_decide_eq_true_2 by lia.
    + by rewrite bool_decide_eq_false_2 by lia.
  - destruct Hs as [|c s Hc Hs]; cbn [Re.atMost Re.eos length].
    + by rewrite bool_decide_eq_true_2 by lia.
    + rewrite Hc, IH by done. rewrite orb_false_r, andb_true_l.
      apply bool_decide_ext. lia.
Qed.

Lemma exactly_digits n m s :
  allDigits s →
  Re.exactly Re.digit n (Re.atMost Re.digit m Re.eos) s
  = bool_decide (n ≤ length s ≤ n + m)%nat.
Proof.
  revert s. induction n as [|n IH]; intros s Hs.
  - cbn [Re.exactly]. rewrite atMost_digits by done.
    apply bool_decide_ext. lia.
  - destruct Hs as [|c s Hc Hs]; cbn [Re.exactly length].
    + by rewrite bool_decide_eq_false_2 by lia.
    + rewrite Hc, IH by done. rewrite andb_true_l.
      apply bool_decide_ext. lia.
Qed.

(** On a string of digits the regular expression only measures length. *)
Lemma phoneRe_digits p :
  allDigits p → phoneRe p = bool_decide (11 ≤ length p ≤ 15)%nat.
Proof.
  intros Hp. unfold phoneRe, Re.between.
  rewrite exactly_digits by done. apply bool_decide_ext. lia.
Qed.

Lemma trunk_allDigits phone : allDigits (trunk phone).
Proof.
  unfold trunk. pose proof (removeAll_nonDigit_allDigits phone) as H.
  destruct (Re.removeAll Re.nonDigit phone) as [|c p]; [exact H|].
  cbn [Js.startsWith Js.lit map String.list_ascii_of_string].
  destruct (_ =? c)%N; [|exact H].
  inversion H; subst. repeat constructor; done.
Qed.

Lemma trunk_no_zero phone : Js.startsWith (js "0") (trunk phone) = false.
Proof.
  unfold trunk.
  destruct (Js.startsWith (js "0") (Re.removeAll Re.nonDigit phone)) eqn:E;
    done.
Qed.

Lemma validatePhone_trunk phone :
  validatePhone phone =
  if bool_decide (11 ≤ length (trunk phone) ≤ 15)%nat
  then Ok (js "+" ++ trunk phone)
  else Throw (Error (js "Invalid phone number")).
Proof.
  change (validatePhone phone)
    with (if negb (phoneRe (trunk phone))
          then Throw (Error (js "Invalid phone number"))
          else Ok (js "+" ++ trunk phone)).
  rewrite phoneRe_digits by apply trunk_allDigits.
  by case_bool_decide.
Qed.

(** C7: [validatePhone] is the normalization the specification describes
    (strip the non-digits, replace a leading "0" by "27", fail with
    "Invalid phone number" unless 11 to 15 digits remain, prepend "+");
    "0821234567" and "+27821234567" both give "+27821234567", and every
    input with exactly five digits fails. *)
Theorem validatePhone_normalizes :
  (∀ raw, validatePhone raw = normalizePhone raw)
  ∧ validatePhone (js "0821234567") = Ok (js "+27821234567")
  ∧ validatePhone (js "+27821234567") = Ok (js "+27821234567")
  ∧ (∀ raw, length (List.filter Re.digit raw) = 5%nat →
       validatePhone raw = Throw (Error (js "Invalid phone number"))).
Proof.
  assert (Htr : ∀ raw,
    trunk raw = match List.filter Re.digit raw with
                | c :: rest =>
                    if (c =? 48)%N then js "27" ++ rest
                    else List.filter Re.digit raw
                | [] => List.filter Re.digit raw
                end).
  { intros raw. unfold trunk. rewrite removeAll_nonDigit_filter.
    destruct (List.filter _ raw) as [|c p]; [done|].
    cbn [Js.startsWith Js.lit map String.list_ascii_of_string Js.slice1 tail].
    rewrite andb_true_r, (N.eqb_sym _ c). done. }
  split; [|split; [reflexivity|split; [reflexivity|]]].
  - intros raw. rewrite validatePhone_trunk. unfold normalizePhone.
    cbv zeta. by rewrite Htr.
  - intros raw Hlen. rewrite validatePhone_trunk, Htr.
    destruct (List.filter _ raw) as [|c p]; [done|].
    rewrite bool_decide_eq_false_2; [done|].
    cbn [length] in Hlen.
    destruct (c =? 48)%N; cbn [length Js.lit map app
      String.list_ascii_of_string]; lia.
Qed.

(** C9: a number [validatePhone] returns is a fixed point of
    [validatePhone]. *)
Theorem validatePhone_idempotent raw r :
  validatePhone raw = Ok r → validatePhone r = Ok r.
Proof.
  rewrite validatePhone_trunk. case_bool_decide as Hlen; [|done].
  intros Hr. assert (r = js "+" ++ trunk raw) as -> by congruence.
  clear Hr.
  assert (Hfix : trunk (js "+" ++ trunk raw) = trunk raw).
  { unfold trunk at 1.
    change (Re.removeAll Re.nonDigit (js "+" ++ trunk raw))
      with (Re.removeAll Re.nonDigit (trunk raw)).
    rewrite removeAll_nonDigit_id by apply trunk_allDigits.
    by rewrite trunk_no_zero. }
  rewrite validatePhone_trunk, Hfix. by rewrite bool_decide_eq_true_2.
Qed.

(** ** Notifier *)

Section Notifier.

Context (env : Env).

(** C4: [sendWithRetry] with three attempts calls [sendFn] at most three
    times; a successful call returns its result at once; after the first
    failed call it sleeps [2 ** 1 * 500 = 1000] ms and after the second
    [2 ** 2 * 500 = 2000] ms; when the third call fails too, its error is
    thrown to the caller. *)
Theorem sendWithRetry_three_attempts {A} (sendFn : M A) (w : World) :
  sendWithRetry sendFn 3 w =
  match sendFn w with
  | (Ok a, w1) => (Ok a, w1)
  | (Throw _, w1) =>
      match sendFn (emit (Sleep 1000) w1) with
      | (Ok a, w2) => (Ok a, w2)
      | (Throw _, w2) =>
          match sendFn (emit (Sleep 2000) w2) with
          | (Ok a, w3) => (Ok a, w3)
          | (Throw err3, w3) => (Throw err3, w3)
          end
      end
  end.
Proof.
  unfold sendWithRetry, sendWithRetryFrom, tryCatch, bind, sleep, ret, throw.
  change (2 ^ Z.of_nat 1 * 500) with 1000.
  change (2 ^ Z.of_nat 2 * 500) with 2000.
  destruct (sendFn w) as [[a|e1] w1]; [done|]. simpl.
  destruct (sendFn (emit (Sleep 1000) w1)) as [[a|e2] w2]; [done|]. simpl.
  destruct (sendFn (emit (Sleep 2000) w2)) as [[a|e3] w3]; done.
Qed.

Lemma deliveries_app l1 l2 :
  deliveries (l1 ++ l2) = (deliveries l1 + deliveries l2)%nat.
Proof. unfold deliveries. by rewrite List.filter_app, length_app. Qed.

Lemma sendWithRetryFrom_S {A} (sendFn : M A) attempts i remaining lastErr w :
  sendWithRetryFrom sendFn attempts i (S remaining) lastErr w =
  match sendFn w with
  | (Ok a, w') => (Ok a, w')
  | (Throw err, w') =>
      sendWithRetryFrom sendFn attempts (S i) remaining err
        (if (i <? attempts)%nat then emit (Sleep (2 ^ Z.of_nat i * 500)) w'
         else w')
  end.
Proof.
  cbn [sendWithRetryFrom]. unfold tryCatch, bind.
  destruct (sendFn w) as [[a|err] w']; [done|].
  by destruct (i <? attempts)%nat.
Qed.

(** A retried send only adds attempts at its message and sleeps, never
    touches the store, and delivers exactly when it returns normally. *)
Lemma sendWithRetryFrom_effects m attempts remaining :
  ∀ i lastErr w,
    let run := sendWithRetryFrom (messagesCreate env m) attempts i
                 remaining lastErr w in
    bookings run.2 = bookings w
    ∧ ∃ l, trace run.2 = trace w ++ l
           ∧ Forall (isAttemptOf m) l
           ∧ deliveries l = match run.1 with Ok _ => 1 | Throw _ => 0 end%nat.
Proof.
  induction remaining as [|remaining IH]; intros i lastErr w.
  - simpl. split; [done|]. exists []. by rewrite app_nil_r.
  - rewrite sendWithRetryFrom_S. unfold messagesCreate at 1.
    destruct (twilioCreate env (trace w) m) as [sid|err] eqn:E.
    + simpl. split; [done|]. eexists; split; [done|]. split; [|done].
      by repeat constructor.
    + set (w1 := emit (MessageCreate m (Throw err)) w).
      set (w2 := if (i <? attempts)%nat
                 then emit (Sleep (2 ^ Z.of_nat i * 500)) w1 else w1).
      assert (∃ l2, bookings w2 = bookings w
                    ∧ trace w2 = trace w ++ MessageCreate m (Throw err) :: l2
                    ∧ Forall (isAttemptOf m) l2
                    ∧ deliveries l2 = 0%nat) as (l2 & Hb & Ht & Hl & Hd).
      { subst w2. destruct (i <? attempts)%nat.
        - exists [Sleep (2 ^ Z.of_nat i * 500)]. simpl.
          rewrite <- app_assoc. repeat split; by repeat constructor.
        - exists []. repeat split; by repeat constructor. }
      destruct (IH (S i) err w2) as (Hb' & l & Ht' & Hl' & Hd').
      cbv zeta. split; [congruence|].
      exists (MessageCreate m (Throw err) :: l2 ++ l).
      split; [|split].
      * rewrite Ht', Ht. by rewrite <- app_assoc.
      * constructor; [done|]. by apply Forall_app.
      * change (MessageCreate m (Throw err) :: l2 ++ l)
          with ([MessageCreate m (Throw err)] ++ l2 ++ l).
        rewrite !deliveries_app, Hd, Hd'. done.
Qed.

Lemma sendByMethod_effects booking message w :
  let run := sendByMethod env booking message w in
  bookings run.2 = bookings w
  ∧ ∃ l, trace run.2 = trace w ++ l
         ∧ Forall (isAttemptOf (messageFor env booking message)) l
         ∧ deliveries l = match run.1 with Ok _ => 1 | Throw _ => 0 end%nat.
Proof.
  unfold sendByMethod, messageFor, sendWhatsApp, sendSms, sendWithRetry.
  case_bool_decide; apply sendWithRetryFrom_effects.
Qed.

End Notifier.

(** ** Webhook *)

Section Webhook.

Context (env : Env).

Lemma eqb_true (s t : Js.str) : Js.eqb s t = true ↔ s = t.
Proof. unfold Js.eqb. apply bool_decide_eq_true. Qed.

Lemma eqb_refl (s : Js.str) : Js.eqb s s = true.
Proof. by apply eqb_true. Qed.

Lemma truthy_get (v : option Js.str) : Js.truthy v = true → v = Some (get v).
Proof. by destruct v as [[|c s]|]. Qed.

(** C3: a request whose signature header is not the HMAC-SHA512 hex
    digest of its raw body under the shared secret is answered with an
    error status (405, 401 or 403) and leaves the world as it was: no
    booking is changed and no message is sent. *)
Theorem paystackWebhook_rejects_bad_signature (req : Request.t) (w : World) :
  Request.signature req ≠ Some (expectedSignature env req) →
  ∃ code, paystackWebhook env req w = (code, w)
          ∧ (code = 405 ∨ code = 401 ∨ code = 403).
Proof.
  intros Hsig. unfold paystackWebhook, webhookTry.
  destruct (Js.eqb (Request.method req) (js "POST")); simpl;
    [|exists 405; auto].
  destruct (Js.truthy (Request.signature req)) eqn:Ht; simpl;
    [|exists 401; auto].
  destruct (Js.eqb _ (get (Request.signature req))) eqn:Heq; simpl;
    [|exists 403; auto].
  exfalso. apply Hsig. apply eqb_true in Heq.
  rewrite (truthy_get _ Ht). f_equal. symmetry. exact Heq.
Qed.

(** A signed charge reaches [doc(name)]: the handler answers 500 when
    that throws; otherwise it runs the transaction, and answers 200 when
    the transaction returns and 500 when it throws. *)
Lemma paystackWebhook_signedCharge req name amount w :
  signedCharge env req name amount →
  paystackWebhook env req w =
  match docRef env name with
  | Throw _ => (500, w)
  | Ok bookingRef =>
      match runTransaction (confirmPayment env bookingRef amount) w with
      | (Ok _, w') => (200, w')
      | (Throw _, w') => (500, w')
      end
  end.
Proof.
  intros (Hm & Hs & Hne & He & Hd & Hid).
  unfold paystackWebhook, webhookTry, eventBookingId.
  rewrite Hm, eqb_refl, Hs, He, eqb_refl, Hd.
  fold (expectedSignature env req).
  destruct (expectedSignature env req) as [|c h] eqn:Eh; [done|].
  cbn [Js.truthy negb get default]. rewrite eqb_refl.
  destruct name as [|c' name']; [done|].
  cbn [negb mbind option_bind Event.metadata Event.bookingId Js.truthy
       fmap option_fmap option_map Event.amount get default].
  unfold bind, ret, lift, id.
  destruct (docRef env (c' :: name')) as [bookingRef|e]; [|done].
  by destruct (runTransaction _ w) as [[[]|e] w'].
Qed.

(** A valid charge reaches the transaction on its document. *)
Lemma paystackWebhook_validCharge req id amount w :
  validCharge env req id amount →
  paystackWebhook env req w =
  match runTransaction (confirmPayment env (InBookings id) amount) w with
  | (Ok _, w') => (200, w')
  | (Throw _, w') => (500, w')
  end.
Proof.
  intros [Hs Hr]. by rewrite (paystackWebhook_signedCharge _ _ _ _ Hs), Hr.
Qed.

(** The three outcomes of the webhook's transaction. *)
Lemma runTransaction_confirmPayment id amount w :
  runTransaction (confirmPayment env (InBookings id) amount) w =
  match bookings w !! id with
  | None => (Ok tt, written (TxCommit []) (bookings w) w)
  | Some b =>
      if Booking.isPaid b
      then (Ok tt, written (TxCommit []) (bookings w) w)
      else
        match sendByMethod env b (confirmationMessage b) w with
        | (Ok _, w1) =>
            (Ok tt, written (TxCommit [id])
                      (<[id := Booking.markPaid amount b]> (bookings w)) w1)
        | (Throw e, w1) => (Throw e, w1)
        end
  end.
Proof.
  unfold runTransaction, confirmPayment, bind, txGet, txUpdate, ret.
  destruct (bookings w !! id) as [b|] eqn:Hb; [|done].
  destruct (Booking.isPaid b); [done|].
  pose proof (sendByMethod_effects env b (confirmationMessage b) w) as [Hs _].
  destruct (sendByMethod env b (confirmationMessage b) w) as [[sid|e] w1];
    [|done].
  simpl in Hs. cbn [foldl applyWrite fmap list_fmap fst snd].
  rewrite Hs. do 2 f_equal. unfold applyWrite. cbn [fst snd].
  apply map_eq; intros j. rewrite lookup_alter.
  destruct (decide (id = j)) as [<-|Hne].
  - by rewrite lookup_insert_eq, Hb.
  - by rewrite lookup_insert_ne.
Qed.

Lemma newEffects_app w w' l : trace w' = trace w ++ l → newEffects w w' = l.
Proof. intros H. unfold newEffects. rewrite H. apply drop_app_length. Qed.

Lemma newEffects_written e s w w1 l :
  trace w1 = trace w ++ l → newEffects w (written e s w1) = l ++ [e].
Proof.
  intros H. apply newEffects_app. simpl. by rewrite H, <- app_assoc.
Qed.

Lemma attempts_no_write m id l :
  Forall (isAttemptOf m) l → transitions id l = 0%nat.
Proof.
  unfold transitions. induction 1 as [|e l He _ IH]; [done|].
  destruct e; simpl in *; done.
Qed.

Lemma transitions_app id l1 l2 :
  transitions id (l1 ++ l2) = (transitions id l1 + transitions id l2)%nat.
Proof. unfold transitions. by rewrite List.filter_app, length_app. Qed.

(** C6 (as the code has it): for a signed charge event, the handler
    first builds the reference [doc(bookingId)]; when the id is not a
    document path this throws, and the answer is 500 with the world
    untouched. Otherwise, inside the transaction, a booking that is absent
    from the store makes the handler return without writing or notifying,
    and the handler answers 200; so does a booking whose [paymentStatus]
    is already Paid; otherwise the update [paymentStatus = Paid],
    [depositPaid = amount / 100], [status = Accepted], [verified = true],
    [receiptEmailSent = false] is staged, the confirmation is sent, and
    the update is committed with answer 200 when the send returns, while a
    throwing send aborts the transaction with answer 500 and an unchanged
    store. *)
Theorem paystackWebhook_transaction_outcomes req name amount w :
  signedCharge env req name amount →
  match docRef env name with
  | Throw _ => paystackWebhook env req w = (500, w)
  | Ok Elsewhere =>
      paystackWebhook env req w = (200, written (TxCommit []) (bookings w) w)
  | Ok (InBookings id) =>
      match bookings w !! id with
      | None =>
          paystackWebhook env req w
          = (200, written (TxCommit []) (bookings w) w)
      | Some b =>
          if Booking.isPaid b
          then paystackWebhook env req w
               = (200, written (TxCommit []) (bookings w) w)
          else
            let b' := Booking.markPaid amount b in
            Booking.paymentStatus b' = Booking.Paid
            ∧ Booking.depositPaid b' = Some (amount # 100)%Q
            ∧ Booking.status b' = Booking.Accepted
            ∧ Booking.verified b' = Some true
            ∧ Booking.receiptEmailSent b' = Some false
            ∧ ∃ r w1,
                sendByMethod env b (confirmationMessage b) w = (r, w1)
                ∧ bookings w1 = bookings w
                ∧ match r with
                  | Ok _ =>
                      paystackWebhook env req w
                      = (200, written (TxCommit [id])
                                (<[id := b']> (bookings w)) w1)
                  | Throw _ => paystackWebhook env req w = (500, w1)
                  end
      end
  end.
Proof.
  intros Hv. rewrite (paystackWebhook_signedCharge _ _ _ _ Hv).
  destruct (docRef env name) as [[id|]|err]; [|done..].
  rewrite runTransaction_confirmPayment.
  destruct (bookings w !! id) as [b|]; [|done].
  destruct (Booking.isPaid b); [done|].
  cbv zeta. do 5 (split; [done|]).
  pose proof (sendByMethod_effects env b (confirmationMessage b) w) as [Hs _].
  destruct (sendByMethod env b (confirmationMessage b) w) as [[sid|e] w1];
    eexists _, _; (split; [done|]); split; done.
Qed.

(** C2 (as the code has it): for a valid charge event on an unpaid
    booking, the confirmation is sent from inside the transaction, before
    the commit: when the send returns, the effects of the delivery are the
    attempts of the send (one of them delivered) followed by the commit of
    the Paid/Accepted update, and the answer is 200; when the send throws,
    the transaction is aborted: the effects are the failed attempts only,
    nothing is committed, the store is as before, and the answer is
    500. *)
Theorem confirmation_sent_inside_transaction req id amount b w :
  validCharge env req id amount →
  bookings w !! id = Some b →
  Booking.isPaid b = false →
  ∃ r w1 l,
    sendByMethod env b (confirmationMessage b) w = (r, w1)
    ∧ trace w1 = trace w ++ l
    ∧ Forall (isAttemptOf (messageFor env b (confirmationMessage b))) l
    ∧ ∃ code w2,
        paystackWebhook env req w = (code, w2)
        ∧ match r with
          | Ok _ =>
              code = 200
              ∧ deliveries l = 1%nat
              ∧ newEffects w w2 = l ++ [TxCommit [id]]
              ∧ bookings w2 = <[id := Booking.markPaid amount b]> (bookings w)
          | Throw _ =>
              code = 500
              ∧ deliveries l = 0%nat
              ∧ newEffects w w2 = l
              ∧ bookings w2 = bookings w
          end.
Proof.
  intros Hv Hb Hp. rewrite (paystackWebhook_validCharge _ _ _ _ Hv).
  rewrite runTransaction_confirmPayment, Hb, Hp.
  pose proof (sendByMethod_effects env b (confirmationMessage b) w)
    as (Hs & l & Ht & Hl & Hd).
  destruct (sendByMethod env b (confirmationMessage b) w) as [[sid|e] w1];
    simpl in Hs, Ht, Hd; eexists _, w1, l; (do 3 (split; [done|]));
    eexists _, _; (split; [done|]).
  - repeat split; [done|]. by apply newEffects_written.
  - repeat split; [done| |done]. by apply newEffects_app.
Qed.

(** C1 (as the code has it): when a valid charge event for an unpaid
    booking is delivered twice and the confirmation send of the first
    delivery succeeds, both deliveries are answered 200, the booking is
    Paid and Accepted after the first and after the second, the store is
    written once (by the first delivery), exactly one message is
    delivered, and the second delivery changes no booking and sends
    nothing. *)
Theorem paystackWebhook_idempotent req id amount b sid w :
  validCharge env req id amount →
  bookings w !! id = Some b →
  Booking.isPaid b = false →
  (sendByMethod env b (confirmationMessage b) w).1 = Ok sid →
  let first := paystackWebhook env req w in
  let second := paystackWebhook env req first.2 in
  let paid := Booking.markPaid amount b in
  first.1 = 200 ∧ second.1 = 200
  ∧ bookings first.2 = <[id := paid]> (bookings w)
  ∧ bookings second.2 = bookings first.2
  ∧ bookings second.2 !! id = Some paid
  ∧ Booking.paymentStatus paid = Booking.Paid
  ∧ Booking.status paid = Booking.Accepted
  ∧ transitions id (newEffects w second.2) = 1%nat
  ∧ deliveries (newEffects w second.2) = 1%nat
  ∧ newEffects first.2 second.2 = [TxCommit []].
Proof.
  intros Hv Hb Hp Hsend. cbv zeta.
  pose proof (sendByMethod_effects env b (confirmationMessage b) w)
    as (Hs & l & Ht & Hl & Hd).
  assert (H1 : paystackWebhook env req w
               = (200, written (TxCommit [id])
                         (<[id := Booking.markPaid amount b]> (bookings w))
                         (sendByMethod env b (confirmationMessage b) w).2)).
  { rewrite (paystackWebhook_validCharge _ _ _ _ Hv).
    rewrite runTransaction_confirmPayment, Hb, Hp.
    destruct (sendByMethod env b (confirmationMessage b) w) as [[x|e] w1];
      [done|]. simpl in Hsend. done. }
  rewrite Hsend in Hd.
  set (w1 := (sendByMethod env b (confirmationMessage b) w).2) in *.
  rewrite H1. cbn [fst snd].
  set (wA := written (TxCommit [id])
               (<[id := Booking.markPaid amount b]> (bookings w)) w1).
  assert (H2 : paystackWebhook env req wA
               = (200, written (TxCommit []) (bookings wA) wA)).
  { rewrite (paystackWebhook_validCharge _ _ _ _ Hv).
    rewrite runTransaction_confirmPayment.
    subst wA. cbn [bookings written]. by rewrite lookup_insert_eq. }
  rewrite H2. cbn [fst snd].
  assert (Htr : trace (written (TxCommit []) (bookings wA) wA)
                = trace w ++ (l ++ [TxCommit [id]] ++ [TxCommit []])).
  { simpl. rewrite Ht. by rewrite <- !app_assoc. }
  rewrite (newEffects_app _ _ _ Htr).
  repeat split; try done.
  - subst wA. cbn [bookings written]. by rewrite lookup_insert_eq.
  - rewrite !transitions_app, (attempts_no_write _ _ _ Hl).
    unfold transitions. cbn [List.filter writesTo app].
    rewrite bool_decide_eq_true_2 by set_solver.
    rewrite bool_decide_eq_false_2 by set_solver. done.
  - rewrite !deliveries_app, Hd. done.
  - apply newEffects_app. done.
Qed.

End Webhook.

(** ** Booking creation *)

Section CreateBooking.

Context (env : Env).

Lemma someRequiredAbsent_missing d :
  someRequiredAbsent d → missingFields d = true.
Proof.
  unfold someRequiredAbsent, missingFields.
  intros H. destruct d as [a b c e f g h i j]; simpl in *.
  destruct_or!; subst; simpl; rewrite ?orb_true_r; done.
Qed.

(** What [createBooking] does once the required fields are there, the
    validators accept and a method is given. *)
Lemma createBooking_runs now d p e m w :
  missingFields d = false →
  validatePhone (get (BookingData.clientPhone d)) = Ok p →
  validateEmail (get (BookingData.email d)) = Ok e →
  BookingData.method d = Some m →
  createBooking env now d w
  = let id := autoId env (bookings w) in
    let w1 := written (DocAdd id)
                (<[id := storedBooking now d p e]> (bookings w)) w in
    let r := paystackInitialize env (trace w1) (initFor env d id) in
    (match r with
     | Ok response => Ok (Paystack.authorization_url response)
     | Throw err => Throw err
     end, emit (PaystackInit (initFor env d id) r) w1).
Proof.
  intros Hm Hp He Hmeth. unfold createBooking. rewrite Hm.
  unfold bind, lift. rewrite Hp, He.
  unfold collectionAdd, axiosPost, ret, initFor, storedBooking.
  cbn [Booking.method]. rewrite Hmeth. cbv zeta.
  by destruct (paystackInitialize env _ _).
Qed.

(** Without a method the document has an [undefined] field: [add] throws
    and nothing has happened. *)
Lemma createBooking_no_method now d p e w :
  missingFields d = false →
  validatePhone (get (BookingData.clientPhone d)) = Ok p →
  validateEmail (get (BookingData.email d)) = Ok e →
  BookingData.method d = None →
  createBooking env now d w
  = (Throw (undefinedValueError (js "method")), w).
Proof.
  intros Hm Hp He Hmeth. unfold createBooking. rewrite Hm.
  unfold bind, lift. rewrite Hp, He.
  unfold collectionAdd. cbn [Booking.method]. by rewrite Hmeth.
Qed.

(** Either [createBooking] throws before doing anything, or it runs as
    [createBooking_runs] says. *)
Lemma createBooking_cases now d w :
  (∃ err, createBooking env now d w = (Throw err, w))
  ∨ ∃ p e m,
      missingFields d = false
      ∧ validatePhone (get (BookingData.clientPhone d)) = Ok p
      ∧ validateEmail (get (BookingData.email d)) = Ok e
      ∧ BookingData.method d = Some m.
Proof.
  destruct (missingFields d) eqn:Hm.
  { left. unfold createBooking. rewrite Hm. by eexists. }
  destruct (validatePhone (get (BookingData.clientPhone d))) as [p|err]
    eqn:Hp.
  2: { left. unfold createBooking, bind, lift. rewrite Hm, Hp. by eexists. }
  destruct (validateEmail (get (BookingData.email d))) as [e|err] eqn:He.
  2: { left. unfold createBooking, bind, lift. rewrite Hm, Hp, He.
       by eexists. }
  destruct (BookingData.method d) as [m|] eqn:Hmeth.
  - right. by exists p, e, m.
  - left. rewrite (createBooking_no_method now d p e w Hm Hp He Hmeth).
    by eexists.
Qed.

(** C5 (as the code has it): a required field that is absent makes the
    presence check fail, and so does one that is there but falsy (an empty
    string, a price of 0); whenever the check fails [createBooking] throws
    "Missing required fields" and the world is untouched. When the check
    passes, a method is given and the validators accept the phone and the
    email, [createBooking] adds one new document with [status = Pending],
    [paymentStatus = Unpaid], the normalized phone and the validated
    email, then asks Paystack once to initialize the transaction for that
    document, and returns the [authorization_url] of Paystack's response
    when Paystack answers (its error is rethrown otherwise, the document
    staying stored). *)
Theorem createBooking_persists_and_returns_url now d w :
  (someRequiredAbsent d → missingFields d = true)
  ∧ (missingFields d = true →
     createBooking env now d w
     = (Throw (Error (js "Missing required fields")), w))
  ∧ (∀ p e m,
       missingFields d = false →
       BookingData.method d = Some m →
       validatePhone (get (BookingData.clientPhone d)) = Ok p →
       validateEmail (get (BookingData.email d)) = Ok e →
       bookings w !! autoId env (bookings w) = None →
       ∃ id b w1 w2,
         bookings w !! id = None
         ∧ bookings w1 = <[id := b]> (bookings w)
         ∧ newEffects w w1 = [DocAdd id]
         ∧ Booking.status b = Booking.Pending
         ∧ Booking.paymentStatus b = Booking.Unpaid
         ∧ Booking.clientPhone b = p
         ∧ Booking.clientEmail b = e
         ∧ Booking.method b = Some m
         ∧ bookings w2 = bookings w1
         ∧ newEffects w1 w2
           = [PaystackInit (initFor env d id)
                (paystackInitialize env (trace w1) (initFor env d id))]
         ∧ match paystackInitialize env (trace w1) (initFor env d id) with
           | Ok response =>
               createBooking env now d w
               = (Ok (Paystack.authorization_url response), w2)
           | Throw err => createBooking env now d w = (Throw err, w2)
           end).
Proof.
  split; [apply someRequiredAbsent_missing|]. split.
  - intros H. unfold createBooking. by rewrite H.
  - intros p e m Hm Hmeth Hp He Hfresh.
    pose proof (createBooking_runs now d p e m w Hm Hp He Hmeth) as Hrun.
    cbv zeta in Hrun.
    set (id := autoId env (bookings w)) in *.
    set (b := storedBooking now d p e) in *.
    set (w1 := written (DocAdd id) (<[id := b]> (bookings w)) w) in *.
    set (r := paystackInitialize env (trace w1) (initFor env d id)) in *.
    exists id, b, w1, (emit (PaystackInit (initFor env d id) r) w1).
    split; [exact Hfresh|].
    split; [reflexivity|]. split; [by apply newEffects_app|].
    do 4 (split; [done|]). split; [exact Hmeth|].
    split; [reflexivity|]. split; [by apply newEffects_app|].
    fold r. rewrite Hrun. by destruct r.
Qed.

End CreateBooking.

(** ** Reminder sweep *)

Section Reminders.

Context (env : Env).

(** One iteration: the send runs on the data of the snapshot; the
    document is marked when the send returns and left alone when it
    throws; the iteration itself never throws. *)
Lemma remindOne_run id b w :
  bookings w !! id = Some b →
  ∃ r w1 l,
    sendByMethod env b (reminderMessage b) w = (r, w1)
    ∧ trace w1 = trace w ++ l
    ∧ Forall (isAttemptOf (messageFor env b (reminderMessage b))) l
    ∧ bookings w1 = bookings w
    ∧ remindOne env (id, b) w
      = (Ok tt,
         match r with
         | Ok _ =>
             written (DocUpdate id)
               (<[id := Booking.markReminded b]> (bookings w)) w1
         | Throw _ => w1
         end).
Proof.
  intros Hb.
  pose proof (sendByMethod_effects env b (reminderMessage b) w)
    as (Hs & l & Ht & Hl & _).
  unfold remindOne, tryCatch, bind, docUpdate, ret. cbn [fst snd].
  destruct (sendByMethod env b (reminderMessage b) w) as [[sid|e] w1].
  - simpl in Hs, Ht. exists (Ok sid), w1, l. rewrite Hs, Hb. done.
  - simpl in Hs, Ht. by exists (Throw e), w1, l.
Qed.

Lemma filter_fst_NoDup {A} (f : Js.str * A → bool) (l : list (Js.str * A)) :
  NoDup l.*1 → NoDup (List.filter f l).*1.
Proof.
  induction l as [|[i x] l IH]; simpl; [done|].
  rewrite NoDup_cons. intros [Hi Hl]. destruct (f (i, x)); [|auto].
  simpl. apply NoDup_cons. split; [|auto].
  intros Hin. apply Hi.
  apply list_elem_of_fmap in Hin as ([j y] & -> & Hin).
  apply list_elem_of_In, List.filter_In in Hin as [Hin _].
  apply list_elem_of_fmap. exists (j, y). split; [done|].
  by apply list_elem_of_In.
Qed.

Lemma queryDue_spec (now : Z) (s : gmap Js.str Booking.t) id b :
  (id, b) ∈ queryDue now s ↔ s !! id = Some b ∧ due now b = true.
Proof.
  unfold queryDue. rewrite list_elem_of_In, List.filter_In.
  rewrite <- list_elem_of_In, elem_of_map_to_list. done.
Qed.

Lemma queryDue_NoDup (now : Z) (s : gmap Js.str Booking.t) :
  NoDup (queryDue now s).*1.
Proof. apply filter_fst_NoDup, NoDup_fst_map_to_list. Qed.

(** The loop over a snapshot whose documents are still in the store. *)
Lemma forOf_remindOne docs :
  NoDup docs.*1 →
  ∀ w,
    (∀ id b, (id, b) ∈ docs → bookings w !! id = Some b) →
    ∃ w',
      forOf docs (remindOne env) w = (Ok tt, w')
      ∧ trace w `prefix_of` trace w'
      ∧ (∀ id, id ∉ docs.*1 → bookings w' !! id = bookings w !! id)
      ∧ (∀ id b, (id, b) ∈ docs →
           ∃ w1 r w2,
             trace w `prefix_of` trace w1
             ∧ sendByMethod env b (reminderMessage b) w1 = (r, w2)
             ∧ trace w2 `prefix_of` trace w'
             ∧ bookings w' !! id
               = Some match r with
                      | Ok _ => Booking.markReminded b
                      | Throw _ => b
                      end).
Proof.
  induction docs as [|[id0 b0] docs IH]; intros Hnd w Hin.
  - exists w. repeat split; try done. intros id b H. by apply elem_of_nil in H.
  - simpl in Hnd. apply NoDup_cons in Hnd as [Hid0 Hnd].
    destruct (remindOne_run id0 b0 w)
      as (r & w1 & l & Hsend & Ht & _ & Hs1 & Hone).
    { apply Hin. left. }
    set (wA := match r with
               | Ok _ => written (DocUpdate id0)
                           (<[id0 := Booking.markReminded b0]> (bookings w)) w1
               | Throw _ => w1
               end) in *.
    assert (HtA : trace w1 `prefix_of` trace wA).
    { subst wA. destruct r; simpl; [by apply prefix_app_r|done]. }
    assert (HbA : ∀ id, id ≠ id0 → bookings wA !! id = bookings w !! id).
    { intros id Hne. subst wA. destruct r; simpl; [|by rewrite Hs1].
      by rewrite lookup_insert_ne. }
    assert (HbA0 : bookings wA !! id0
                   = Some match r with
                          | Ok _ => Booking.markReminded b0
                          | Throw _ => b0
                          end).
    { subst wA. destruct r; simpl; [by rewrite lookup_insert_eq|].
      rewrite Hs1. apply Hin. left. }
    assert (Hw1 : trace w `prefix_of` trace w1).
    { rewrite Ht. by apply prefix_app_r. }
    destruct (IH Hnd wA) as (w' & Hrun & Hpre & Hframe & Hdocs).
    { intros id b Hd. rewrite HbA.
      - apply Hin. by right.
      - intros ->. apply Hid0. apply list_elem_of_fmap. by exists (id0, b). }
    exists w'. split; [|split; [|split]].
    + cbn [forOf]. unfold bind. by rewrite Hone.
    + by do 2 (etrans; [eassumption|]).
    + intros id Hnotin. apply not_elem_of_cons in Hnotin as [Hne Hnotin].
      by rewrite Hframe, HbA.
    + intros id b Hd. apply elem_of_cons in Hd as [[= -> ->]|Hd].
      * exists w, r, w1. split; [done|]. split; [done|].
        split; [by etrans|]. by rewrite Hframe.
      * destruct (Hdocs id b Hd) as (wB & rB & wC & H1 & H2 & H3 & H4).
        exists wB, rB, wC. split; [|done].
        by do 2 (etrans; [eassumption|]).
Qed.


End Reminders.

(** ** The notification method *)

Section Method.

Context (env : Env).

Lemma messageFor_sms b message :
  Booking.method b ≠ Some (js "whatsapp") →
  messageFor env b message = smsMessage env (Booking.clientPhone b) message.
Proof. intros H. unfold messageFor. by rewrite bool_decide_eq_false_2. Qed.

Lemma attempts_viaSms phone message l :
  Forall (isAttemptOf (smsMessage env phone message)) l →
  Forall (viaSms env phone) l.
Proof.
  intros H. eapply Forall_impl; [exact H|].
  intros [m r| | | | |]; simpl; try done.
  by intros ->.
Qed.

Lemma missingFields_withMethod m d :
  missingFields (withMethod m d) = missingFields d.
Proof. done. Qed.

(** Which string the method is makes no difference to the result of the
    call. *)
Lemma createBooking_withMethod now d (m m' : Js.str) w :
  (createBooking env now (withMethod (Some m) d) w).1
  = (createBooking env now (withMethod (Some m') d) w).1.
Proof.
  destruct (missingFields d) eqn:Hm.
  { unfold createBooking. by rewrite !missingFields_withMethod, Hm. }
  destruct (validatePhone (get (BookingData.clientPhone d))) as [p|err]
    eqn:Hp.
  2: { unfold createBooking, bind, lift.
       rewrite !missingFields_withMethod, Hm.
       cbn [withMethod BookingData.clientPhone]. by rewrite Hp. }
  destruct (validateEmail (get (BookingData.email d))) as [e|err] eqn:He.
  2: { unfold createBooking, bind, lift.
       rewrite !missingFields_withMethod, Hm.
       cbn [withMethod BookingData.clientPhone BookingData.email].
       by rewrite Hp, He. }
  rewrite (createBooking_runs env now (withMethod (Some m) d) p e m w),
    (createBooking_runs env now (withMethod (Some m') d) p e m' w) by done.
  reflexivity.
Qed.

(** C10 (as the code has it): the presence check of [createBooking] does
    not look at [method]; any string is accepted as method, which string
    it is changes nothing in the result of the call, and it is stored as
    given; and the sends of the webhook and of the reminder sweep go out
    as plain SMS (from [TWILIO_SMS], to the booking's phone) whenever the
    stored method is anything but exactly "whatsapp". *)
Theorem method_is_never_validated :
  (∀ now d w,
     (∀ m, missingFields (withMethod m d) = missingFields d)
     ∧ (∀ m m' : Js.str,
          (createBooking env now (withMethod (Some m) d) w).1
          = (createBooking env now (withMethod (Some m') d) w).1)
     ∧ ∀ (m : Js.str) p e,
         missingFields d = false →
         validatePhone (get (BookingData.clientPhone d)) = Ok p →
         validateEmail (get (BookingData.email d)) = Ok e →
         Booking.method
           <$> bookings (createBooking env now (withMethod (Some m) d) w).2
               !! autoId env (bookings w)
         = Some (Some m))
  ∧ (∀ b message,
       Booking.method b ≠ Some (js "whatsapp") →
       sendByMethod env b message
       = sendSms env (Booking.clientPhone b) message)
  ∧ (∀ req id amount b w,
       validCharge env req id amount →
       bookings w !! id = Some b →
       Booking.method b ≠ Some (js "whatsapp") →
       Forall (viaSms env (Booking.clientPhone b))
         (newEffects w (paystackWebhook env req w).2))
  ∧ (∀ id b w,
       bookings w !! id = Some b →
       Booking.method b ≠ Some (js "whatsapp") →
       Forall (viaSms env (Booking.clientPhone b))
         (newEffects w (remindOne env (id, b) w).2)).
Proof.
  split; [|split; [|split]].
  - intros now d w. split; [done|]. split.
    { intros m m'. apply createBooking_withMethod. }
    intros m p e Hm Hp He.
    rewrite (createBooking_runs env now (withMethod (Some m) d) p e m w)
      by done.
    cbv zeta. cbn [snd bookings emit written].
    by rewrite lookup_insert_eq.
  - intros b message H. unfold sendByMethod.
    by rewrite bool_decide_eq_false_2.
  - intros req id amount b w Hv Hb Hmeth.
    rewrite (paystackWebhook_validCharge _ _ _ _ _ Hv).
    rewrite runTransaction_confirmPayment, Hb.
    destruct (Booking.isPaid b).
    { cbn [snd]. erewrite newEffects_written by (by rewrite app_nil_r).
      by repeat constructor. }
    pose proof (sendByMethod_effects env b (confirmationMessage b) w)
      as (_ & l & Ht & Hl & _).
    rewrite messageFor_sms in Hl by done. apply attempts_viaSms in Hl.
    destruct (sendByMethod env b (confirmationMessage b) w) as [[sid|e] w1];
      simpl in Ht; cbn [snd].
    + rewrite (newEffects_written _ _ _ _ _ Ht).
      apply Forall_app. split; [done|]. by repeat constructor.
    + by rewrite (newEffects_app _ _ _ Ht).
  - intros id b w Hb Hmeth.
    destruct (remindOne_run env id b w Hb)
      as (r & w1 & l & _ & Ht & Hl & _ & ->).
    rewrite messageFor_sms in Hl by done. apply attempts_viaSms in Hl.
    destruct r; cbn [snd].
    + rewrite (newEffects_written _ _ _ _ _ Ht).
      apply Forall_app. split; [done|]. by repeat constructor.
    + by rewrite (newEffects_app _ _ _ Ht).
Qed.

End Method.

(** ** The handlers on the concrete studio *)

Import Scenario.

Example flaky_send :
  let run := sendSms (studio twilioFlaky) (js "+27821234567") (js "hi")
               world0 in
  let m := smsMessage (studio twilioFlaky) (js "+27821234567") (js "hi") in
  run.1 = Ok (js "SM0001")
  ∧ trace run.2
    = [MessageCreate m (Throw (Error (js "ETIMEDOUT"))); Sleep 1000;
       MessageCreate m (Throw (Error (js "ETIMEDOUT"))); Sleep 2000;
       MessageCreate m (Ok (js "SM0001"))].
Proof. vm_compute. done. Qed.

Example down_send :
  let run := sendSms (studio twilioDown) (js "+27821234567") (js "hi")
               world0 in
  run.1 = Throw (Error (js "ETIMEDOUT"))
  ∧ length (List.filter isCreate (trace run.2)) = 3%nat.
Proof. vm_compute. done. Qed.

Lemma charge_signed twilio name :
  name ≠ [] → signedCharge (studio twilio) (charge name) name 85000.
Proof. intros Hne. repeat split; done. Qed.

Lemma charge_valid twilio id :
  id ≠ [] → reference id = Ok (InBookings id) →
  validCharge (studio twilio) (charge id) id 85000.
Proof. intros Hne Hid. split; [by apply charge_signed|exact Hid]. Qed.

(** The validator, at concrete numbers. *)
Lemma validatePhone_normalizes_witness :
  length (List.filter Re.digit (js "12345")) = 5%nat
  ∧ validatePhone (js "12345") = Throw (Error (js "Invalid phone number"))
  ∧ validatePhone (js "(082) 123-4567") = normalizePhone (js "(082) 123-4567").
Proof.
  split; [reflexivity|]. split.
  - apply (proj2 (proj2 (proj2 validatePhone_normalizes))). reflexivity.
  - apply (proj1 validatePhone_normalizes).
Defined.

Lemma validatePhone_idempotent_witness :
  validatePhone (js "082 123 4567") = Ok (js "+27821234567")
  ∧ validatePhone (js "+27821234567") = Ok (js "+27821234567").
Proof.
  split; [reflexivity|].
  apply (validatePhone_idempotent (js "082 123 4567")). reflexivity.
Defined.

(** A forged signature is turned away with 403 and nothing happens. *)
Lemma paystackWebhook_rejects_bad_signature_witness :
  Request.signature (forged b1)
  ≠ Some (expectedSignature (studio twilioUp) (forged b1))
  ∧ ∃ code,
      paystackWebhook (studio twilioUp) (forged b1) world0 = (code, world0)
      ∧ (code = 405 ∨ code = 401 ∨ code = 403).
Proof.
  assert (H : Request.signature (forged b1)
              ≠ Some (expectedSignature (studio twilioUp) (forged b1))).
  { vm_compute. discriminate. }
  split; [exact H|].
  exact (paystackWebhook_rejects_bad_signature
           (studio twilioUp) (forged b1) world0 H).
Defined.

(** C1 fails on the code: with Twilio down, both deliveries of the same
    valid event are answered 500, nothing is delivered, and the booking is
    still Unpaid and Pending after each of them. *)
Lemma redelivery_with_twilio_down :
  validCharge (studio twilioDown) (charge b1) b1 85000
  ∧ bookings world0 !! b1 = Some thandi
  ∧ (paystackWebhook (studio twilioDown) (charge b1) world0).1 = 500
  ∧ (paystackWebhook (studio twilioDown) (charge b1)
       (paystackWebhook (studio twilioDown) (charge b1) world0).2).1 = 500
  ∧ bookings (paystackWebhook (studio twilioDown) (charge b1) world0).2
    !! b1 = Some thandi
  ∧ bookings
      (paystackWebhook (studio twilioDown) (charge b1)
         (paystackWebhook (studio twilioDown) (charge b1) world0).2).2
    !! b1 = Some thandi
  ∧ Booking.paymentStatus thandi = Booking.Unpaid
  ∧ Booking.status thandi = Booking.Pending
  ∧ deliveries
      (trace
         (paystackWebhook (studio twilioDown) (charge b1)
            (paystackWebhook (studio twilioDown) (charge b1) world0).2).2)
    = 0%nat.
Proof.
  split; [by apply charge_valid|].
  repeat split; vm_compute; reflexivity.
Qed.

Lemma paystackWebhook_idempotent_witness :
  validCharge (studio twilioUp) (charge b1) b1 85000
  ∧ bookings world0 !! b1 = Some thandi
  ∧ (paystackWebhook (studio twilioUp) (charge b1) world0).1 = 200
  ∧ (paystackWebhook (studio twilioUp) (charge b1)
       (paystackWebhook (studio twilioUp) (charge b1) world0).2).1 = 200
  ∧ deliveries
      (newEffects world0
         (paystackWebhook (studio twilioUp) (charge b1)
            (paystackWebhook (studio twilioUp) (charge b1) world0).2).2)
    = 1%nat.
Proof.
  assert (Hv : validCharge (studio twilioUp) (charge b1) b1 85000)
    by (by apply charge_valid).
  assert (Hb : bookings world0 !! b1 = Some thandi) by reflexivity.
  assert (Hs : (sendByMethod (studio twilioUp) thandi
                  (confirmationMessage thandi) world0).1 = Ok (js "SM0001"))
    by reflexivity.
  pose proof (paystackWebhook_idempotent (studio twilioUp) (charge b1) b1
                85000 thandi (js "SM0001") world0 Hv Hb eq_refl Hs) as H.
  cbv zeta in H.
  destruct H as (H1 & H2 & _ & _ & _ & _ & _ & _ & H9 & _).
  split; [exact Hv|]. split; [exact Hb|]. split; [exact H1|].
  split; [exact H2|exact H9].
Defined.

(** C2 fails on the code. With Twilio up, the message is created before
    the transaction commits; with Twilio down, the delivery is answered
    500 after three attempts, nothing is committed and the booking is left
    Unpaid and Pending. *)
Lemma confirmation_precedes_commit_and_failure_aborts :
  validCharge (studio twilioUp) (charge b1) b1 85000
  ∧ trace (paystackWebhook (studio twilioUp) (charge b1) world0).2
    = [MessageCreate
         (smsMessage (studio twilioUp) (js "+27821234567")
            (confirmationMessage thandi))
         (Ok (js "SM0001"));
       TxCommit [b1]]
  ∧ (paystackWebhook (studio twilioDown) (charge b1) world0).1 = 500
  ∧ bookings (paystackWebhook (studio twilioDown) (charge b1) world0).2
    = bookings world0
  ∧ bookings world0 !! b1 = Some thandi
  ∧ Booking.paymentStatus thandi = Booking.Unpaid
  ∧ length
      (List.filter isCreate
         (trace (paystackWebhook (studio twilioDown) (charge b1) world0).2))
    = 3%nat
  ∧ List.filter isCommit
      (trace (paystackWebhook (studio twilioDown) (charge b1) world0).2)
    = [].
Proof.
  split; [by apply charge_valid|].
  repeat split; vm_compute; reflexivity.
Qed.

Lemma confirmation_sent_inside_transaction_witness :
  validCharge (studio twilioDown) (charge b1) b1 85000
  ∧ bookings world0 !! b1 = Some thandi
  ∧ Booking.isPaid thandi = false
  ∧ ∃ code w2,
      paystackWebhook (studio twilioDown) (charge b1) world0 = (code, w2)
      ∧ code = 500 ∧ bookings w2 = bookings world0.
Proof.
  assert (Hv : validCharge (studio twilioDown) (charge b1) b1 85000)
    by (by apply charge_valid).
  assert (Hb : bookings world0 !! b1 = Some thandi) by reflexivity.
  do 3 (split; [done|]).
  destruct (confirmation_sent_inside_transaction (studio twilioDown)
              (charge b1) b1 85000 thandi world0 Hv Hb eq_refl)
    as (r & w1 & l & Hsend & _ & _ & code & w2 & Hrun & Hcase).
  assert (Hr : r = Throw (Error (js "ETIMEDOUT"))).
  { apply (f_equal fst) in Hsend. symmetry. exact Hsend. }
  subst r. destruct Hcase as (Hc & _ & _ & Hbk).
  by exists code, w2.
Defined.

(** C6 fails on the code: a valid charge event that names a booking the
    store does not have is answered 200, not with an error status. *)
Lemma unknown_booking_is_acknowledged :
  validCharge (studio twilioUp) (charge (js "nope")) (js "nope") 85000
  ∧ bookings world0 !! js "nope" = None
  ∧ (paystackWebhook (studio twilioUp) (charge (js "nope")) world0).1 = 200
  ∧ ¬ (400 ≤ (paystackWebhook (studio twilioUp) (charge (js "nope"))
                world0).1)
  ∧ bookings (paystackWebhook (studio twilioUp) (charge (js "nope"))
                world0).2
    = bookings world0.
Proof.
  split; [by apply charge_valid|].
  repeat split; vm_compute; try reflexivity. intros H. by apply H.
Qed.

(** An id that is not a document path is answered 500; an unknown booking
    200; the unpaid booking is recorded as paid. *)
Lemma paystackWebhook_transaction_outcomes_witness :
  signedCharge (studio twilioUp) (charge (js "a/b")) (js "a/b") 85000
  ∧ paystackWebhook (studio twilioUp) (charge (js "a/b")) world0
    = (500, world0)
  ∧ signedCharge (studio twilioUp) (charge (js "nope")) (js "nope") 85000
  ∧ paystackWebhook (studio twilioUp) (charge (js "nope")) world0
    = (200, written (TxCommit []) (bookings world0) world0)
  ∧ signedCharge (studio twilioUp) (charge b1) b1 85000
  ∧ ∃ w1,
      paystackWebhook (studio twilioUp) (charge b1) world0
      = (200, written (TxCommit [b1])
                (<[b1 := Booking.markPaid 85000 thandi]> (bookings world0))
                w1).
Proof.
  assert (Hbad : signedCharge (studio twilioUp) (charge (js "a/b"))
                   (js "a/b") 85000) by (by apply charge_signed).
  assert (Hnope : signedCharge (studio twilioUp) (charge (js "nope"))
                    (js "nope") 85000) by (by apply charge_signed).
  assert (Hb1 : signedCharge (studio twilioUp) (charge b1) b1 85000)
    by (by apply charge_signed).
  split; [exact Hbad|]. split.
  { exact (paystackWebhook_transaction_outcomes (studio twilioUp)
             (charge (js "a/b")) (js "a/b") 85000 world0 Hbad). }
  split; [exact Hnope|]. split.
  { exact (paystackWebhook_transaction_outcomes (studio twilioUp)
             (charge (js "nope")) (js "nope") 85000 world0 Hnope). }
  split; [exact Hb1|].
  destruct (paystackWebhook_transaction_outcomes (studio twilioUp)
              (charge b1) b1 85000 world0 Hb1)
    as (_ & _ & _ & _ & _ & r & w1 & Hsend & _ & Hrun).
  assert (Hr : r = Ok (js "SM0001")).
  { apply (f_equal fst) in Hsend. symmetry. exact Hsend. }
  subst r. by exists w1.
Defined.

(** C5 fails on the code: a request that has every required field, a
    method, a phone and an email the validators accept, and a price of 0,
    is refused with "Missing required fields"; nothing is stored. *)
Lemma free_booking_is_refused :
  ¬ someRequiredAbsent freeOfCharge
  ∧ BookingData.price freeOfCharge = Some (Js.Num (0 # 1))
  ∧ BookingData.method freeOfCharge = Some (js "sms")
  ∧ validatePhone (get (BookingData.clientPhone freeOfCharge))
    = Ok (js "+27821234567")
  ∧ validateEmail (get (BookingData.email freeOfCharge))
    = Ok (js "thandi@example.com")
  ∧ createBooking (studio twilioUp) 1000 freeOfCharge world0
    = (Throw (Error (js "Missing required fields")), world0).
Proof.
  split.
  { unfold someRequiredAbsent. intros H. destruct_or!; discriminate. }
  repeat split.
Qed.

(** A complete request with a method is stored and gets its payment link;
    a request whose price is 0 and a request without a style are
    refused. *)
Lemma createBooking_persists_and_returns_url_witness :
  missingFields intakeSms = false
  ∧ BookingData.method intakeSms = Some (js "sms")
  ∧ validatePhone (get (BookingData.clientPhone intakeSms))
    = Ok (js "+27821234567")
  ∧ validateEmail (get (BookingData.email intakeSms))
    = Ok (js "thandi@example.com")
  ∧ bookings world0 !! autoId (studio twilioUp) (bookings world0) = None
  ∧ (∃ id b w1 w2,
       bookings world0 !! id = None
       ∧ bookings w1 = <[id := b]> (bookings world0)
       ∧ bookings w2 = bookings w1
       ∧ Booking.status b = Booking.Pending
       ∧ Booking.paymentStatus b = Booking.Unpaid
       ∧ Booking.clientPhone b = js "+27821234567"
       ∧ Booking.clientEmail b = js "thandi@example.com"
       ∧ Booking.method b = Some (js "sms")
       ∧ createBooking (studio twilioUp) 1000 intakeSms world0
         = (Ok (js "https://checkout.paystack.com/" ++ id), w2))
  ∧ missingFields freeOfCharge = true
  ∧ createBooking (studio twilioUp) 1000 freeOfCharge world0
    = (Throw (Error (js "Missing required fields")), world0)
  ∧ someRequiredAbsent Replay.noStyle
  ∧ missingFields Replay.noStyle = true.
Proof.
  assert (Hfresh : bookings world0
                   !! autoId (studio twilioUp) (bookings world0) = None)
    by (vm_compute; reflexivity).
  assert (Habs : someRequiredAbsent Replay.noStyle) by (left; reflexivity).
  do 4 (split; [reflexivity|]). split; [exact Hfresh|]. split.
  { destruct (proj2 (proj2 (createBooking_persists_and_returns_url
                              (studio twilioUp) 1000 intakeSms world0))
                (js "+27821234567") (js "thandi@example.com") (js "sms")
                eq_refl eq_refl eq_refl eq_refl Hfresh)
      as (id & b & w1 & w2 & H1 & H2 & _ & H4 & H5 & H6 & H7 & H8 & H9 & _
          & Hrun).
    exists id, b, w1, w2. repeat split; assumption. }
  split; [reflexivity|]. split.
  { exact (proj1 (proj2 (createBooking_persists_and_returns_url
                           (studio twilioUp) 1000 freeOfCharge world0))
             eq_refl). }
  split; [exact Habs|].
  exact (proj1 (createBooking_persists_and_returns_url
                  (studio twilioUp) 1000 Replay.noStyle world0) Habs).
Defined.

Example createBooking_returns_gateway_url :
  (createBooking (studio twilioUp) 1000 intakeSms world0).1
  = Ok (js "https://checkout.paystack.com/xxx").
Proof. vm_compute. reflexivity. Qed.


Example sweep_marks_after_success :
  bookings (sendFiveHourReminders (studio twilioUp) 6000 world0).2 !! b2
  = Some (Booking.markReminded lerato)
  ∧ queryDue 7000
      (bookings (sendFiveHourReminders (studio twilioUp) 6000 world0).2)
    = [].
Proof. vm_compute. done. Qed.

Example sweep_keeps_after_failure :
  sendFiveHourReminders (studio twilioDown) 6000 world0
  = (Ok tt, (sendByMethod (studio twilioDown) lerato
               (reminderMessage lerato) world0).2)
  ∧ bookings (sendFiveHourReminders (studio twilioDown) 6000 world0).2
    = bookings world0
  ∧ queryDue 7000
      (bookings (sendFiveHourReminders (studio twilioDown) 6000 world0).2)
    = [(b2, lerato)].
Proof. vm_compute. done. Qed.

(** C10 fails on the code: a request with every required field and no
    method passes the presence check and both validators, and is then
    refused by the store: [add] throws on the undefined field, nothing is
    stored and Paystack is not called. The same request with a method gets
    its payment link. *)
Lemma absent_method_is_refused :
  BookingData.method intake = None
  ∧ missingFields intake = false
  ∧ validatePhone (get (BookingData.clientPhone intake))
    = Ok (js "+27821234567")
  ∧ validateEmail (get (BookingData.email intake))
    = Ok (js "thandi@example.com")
  ∧ createBooking (studio twilioUp) 1000 intake world0
    = (Throw (undefinedValueError (js "method")), world0)
  ∧ (createBooking (studio twilioUp) 1000
       (withMethod (Some (js "sms")) intake) world0).1
    = Ok (js "https://checkout.paystack.com/xxx").
Proof. repeat split; vm_compute; reflexivity. Qed.

(** A request that asks for a "carrier pigeon" is stored with that
    method, and the booking that asked for "sms" is texted. *)
Lemma method_is_never_validated_witness :
  missingFields intake = false
  ∧ validatePhone (get (BookingData.clientPhone intake))
    = Ok (js "+27821234567")
  ∧ validateEmail (get (BookingData.email intake))
    = Ok (js "thandi@example.com")
  ∧ Booking.method
      <$> bookings (createBooking (studio twilioUp) 1000
                      (withMethod (Some (js "carrier pigeon")) intake)
                      world0).2
          !! autoId (studio twilioUp) (bookings world0)
    = Some (Some (js "carrier pigeon"))
  ∧ Booking.method thandi ≠ Some (js "whatsapp")
  ∧ sendByMethod (studio twilioUp) thandi (js "hi")
    = sendSms (studio twilioUp) (Booking.clientPhone thandi) (js "hi").
Proof.
  assert (H : Booking.method thandi ≠ Some (js "whatsapp")) by discriminate.
  do 3 (split; [reflexivity|]). split.
  { exact (proj2 (proj2 (proj1 (method_is_never_validated (studio twilioUp))
                           1000 intake world0))
             (js "carrier pigeon") (js "+27821234567")
             (js "thandi@example.com") eq_refl eq_refl eq_refl). }
  split; [exact H|].
  exact (proj1 (proj2 (method_is_never_validated (studio twilioUp)))
           thandi (js "hi") H).
Defined.

Example method_may_be_anything :
  (createBooking (studio twilioUp) 1000 intakeSms world0).1
  = (createBooking (studio twilioUp) 1000
       (withMethod (Some (js "carrier pigeon")) intake) world0).1.
Proof. vm_compute. reflexivity. Qed.

(** * Further properties of [functions/index.js] *)

(** ** The validators *)

Lemma plus_spec cls k s :
  Re.plus cls k s = true
  ↔ ∃ a r, s = a ++ r ∧ a ≠ []
           ∧ Forall (fun c => cls c = true) a ∧ k r = true.
Proof.
  induction s as [|c s IH]; simpl.
  - split; [done|]. intros (a & r & Hs & Ha & _).
    symmetry in Hs. apply app_eq_nil in Hs as [-> _]. done.
  - rewrite andb_true_iff, orb_true_iff, IH. split.
    + intros [Hc [(a & r & -> & Ha & Hall & Hk)|Hk]].
      * exists (c :: a), r. repeat split; [done|by constructor|done].
      * exists [c], s. repeat split; [done|by repeat constructor|done].
    + intros (a & r & Hs & Ha & Hall & Hk).
      destruct a as [|c' a]; [done|]. simplify_eq/=.
      inversion Hall as [|? ? Hc Hall']; subst. split; [done|].
      destruct a as [|c'' a]; [by right|]. left.
      exists (c'' :: a), r. done.
Qed.

Lemma chr_spec c k s :
  Re.chr c k s = true ↔ ∃ r, s = c :: r ∧ k r = true.
Proof.
  unfold Re.chr. destruct s as [|c' s].
  - split; [done|]. by intros (r & ? & _).
  - rewrite andb_true_iff, N.eqb_eq. split.
    + intros [-> Hk]. by exists s.
    + intros (r & [= -> ->] & Hk). done.
Qed.

Lemma eos_spec s : Re.eos s = true ↔ s = [].
Proof. by destruct s. Qed.

Lemma emailRe_shape s : emailRe s = true ↔ emailShape s.
Proof.
  unfold emailRe, emailShape, atom. rewrite plus_spec. split.
  - intros (l & r & -> & Hl & Hal & Hr).
    apply chr_spec in Hr as (r1 & -> & Hr).
    apply plus_spec in Hr as (d & r2 & -> & Hd & Had & Hr).
    apply chr_spec in Hr as (r3 & -> & Hr).
    apply plus_spec in Hr as (t & r4 & -> & Ht & Hat & Hr).
    apply eos_spec in Hr as ->. rewrite app_nil_r.
    by exists l, d, t.
  - intros (l & d & t & -> & [Hl Hal] & [Hd Had] & [Ht Hat]).
    exists l, (js "@" ++ d ++ js "." ++ t). repeat split; [done..|].
    apply chr_spec. exists (d ++ js "." ++ t). split; [done|].
    apply plus_spec. exists d, (js "." ++ t). repeat split; [done..|].
    apply chr_spec. exists t. split; [done|].
    apply plus_spec. exists t, []. by rewrite app_nil_r.
Qed.

(** [validateEmail] accepts exactly the strings of the shape
    [local@domain.tld] whose three parts are non-empty and free of white
    space and of "@", returns an accepted string unchanged, and throws
    "Invalid email address" on every other string. *)
Theorem validateEmail_accepts_exactly_the_shape email :
  (validateEmail email = Ok email ↔ emailShape email)
  ∧ (validateEmail email = Throw (Error (js "Invalid email address"))
     ↔ ¬ emailShape email).
Proof.
  rewrite <- emailRe_shape. unfold validateEmail.
  destruct (emailRe email); simpl; split; split; done.
Qed.

Lemma atom_no_at a : atom a → countAt a = 0%nat.
Proof.
  intros [_ H]. unfold countAt. induction H as [|c a Hc _ IH]; [done|].
  cbn [List.filter]. unfold Re.notSpaceAt in Hc.
  apply negb_true_iff, orb_false_iff in Hc as [_ Hc].
  by rewrite Hc.
Qed.

Lemma atom_no_space a : atom a → Forall (fun c => Re.space c = false) a.
Proof.
  intros [_ H]. eapply Forall_impl; [exact H|]. intros c Hc.
  unfold Re.notSpaceAt in Hc.
  by apply negb_true_iff, orb_false_iff in Hc as [? _].
Qed.

Lemma countAt_app a b : countAt (a ++ b) = (countAt a + countAt b)%nat.
Proof. unfold countAt. by rewrite List.filter_app, length_app. Qed.

(** An address [validateEmail] accepts comes back unchanged, holds exactly
    one "@", no white space, and at least five code units. *)
Theorem validateEmail_accepted_address email r :
  validateEmail email = Ok r →
  r = email
  ∧ countAt email = 1%nat
  ∧ Forall (fun c => Re.space c = false) email
  ∧ (5 ≤ length email)%nat.
Proof.
  unfold validateEmail. destruct (emailRe email) eqn:E; [|done].
  simpl. intros [= <-]. split; [done|].
  apply emailRe_shape in E as (l & d & t & -> & Hl & Hd & Ht).
  split; [|split].
  - rewrite !countAt_app.
    rewrite (atom_no_at l), (atom_no_at d), (atom_no_at t) by done.
    reflexivity.
  - rewrite !Forall_app. repeat split; try (by apply atom_no_space);
      by repeat constructor.
  - destruct Hl as [Hl _], Hd as [Hd _], Ht as [Ht _].
    rewrite !length_app.
    destruct l; [done|]. destruct d; [done|]. destruct t; [done|].
    simpl. lia.
Qed.

(** A number [validatePhone] accepts is "+" followed by 11 to 15 digits,
    the first of which is not "0". *)
Theorem validatePhone_result_format raw r :
  validatePhone raw = Ok r →
  ∃ p, r = js "+" ++ p
       ∧ allDigits p
       ∧ (11 ≤ length p ≤ 15)%nat
       ∧ Js.startsWith (js "0") p = false.
Proof.
  rewrite validatePhone_trunk. case_bool_decide as Hlen; [|done].
  intros Hr. exists (trunk raw).
  split; [congruence|]. split; [apply trunk_allDigits|].
  split; [done|apply trunk_no_zero].
Qed.

Lemma trunk_filter raw : trunk raw = trunk (List.filter Re.digit raw).
Proof.
  unfold trunk. rewrite !removeAll_nonDigit_filter.
  assert (H : List.filter Re.digit (List.filter Re.digit raw)
              = List.filter Re.digit raw).
  { induction raw as [|c raw IH]; [done|]. simpl.
    destruct (Re.digit c) eqn:E; [|done]. simpl. by rewrite E, IH. }
  by rewrite H.
Qed.

(** Only the digits of the input matter to [validatePhone]: two inputs
    with the same digits, however they are spaced or punctuated, get the
    same answer. *)
Theorem validatePhone_ignores_formatting a b :
  List.filter Re.digit a = List.filter Re.digit b →
  validatePhone a = validatePhone b.
Proof.
  intros H. rewrite !validatePhone_trunk.
  by rewrite (trunk_filter a), (trunk_filter b), H.
Qed.

(** A number written with the trunk prefix "0" and the same number
    written with the country code 27 normalize to the same result. *)
Theorem validatePhone_local_is_international raw rest :
  List.filter Re.digit raw = js "0" ++ rest →
  validatePhone raw = validatePhone (js "+27" ++ rest).
Proof.
  intros H. rewrite !validatePhone_trunk.
  assert (Hd : allDigits rest).
  { pose proof (removeAll_nonDigit_allDigits raw) as Hall.
    rewrite removeAll_nonDigit_filter, H in Hall. by inversion Hall. }
  assert (H1 : trunk raw = js "27" ++ rest).
  { unfold trunk. by rewrite removeAll_nonDigit_filter, H. }
  assert (H2 : trunk (js "+27" ++ rest) = js "27" ++ rest).
  { unfold trunk.
    change (Re.removeAll Re.nonDigit (js "+27" ++ rest))
      with (js "27" ++ Re.removeAll Re.nonDigit rest).
    by rewrite removeAll_nonDigit_id. }
  by rewrite H1, H2.
Qed.

(** ** Retry accounting *)

Section RetryAccounting.

Context (env : Env).

Lemma attemptsMade_app l1 l2 :
  attemptsMade (l1 ++ l2) = (attemptsMade l1 + attemptsMade l2)%nat.
Proof. unfold attemptsMade. by rewrite List.filter_app, length_app. Qed.

Lemma slept_app l1 l2 : slept (l1 ++ l2) = slept l1 + slept l2.
Proof.
  induction l1 as [|e l1 IH]; [done|]. destruct e; simpl; rewrite ?IH; lia.
Qed.

Lemma pow2_succ n : 2 ^ Z.of_nat (S n) = 2 * 2 ^ Z.of_nat n.
Proof. rewrite Nat2Z.inj_succ. apply Z.pow_succ_r. lia. Qed.

(** The loop entered at counter [i] with [remaining] iterations to go
    makes between one and [remaining] calls (none when [remaining] is 0),
    all of them when it throws, and has slept [500 * (2^(i+k-1) - 2^i)]
    ms after [k] calls. *)
Lemma sendWithRetryFrom_accounting m attempts remaining :
  ∀ i lastErr w,
    (i + remaining = S attempts)%nat →
    let run := sendWithRetryFrom (messagesCreate env m) attempts i
                 remaining lastErr w in
    ∃ l, trace run.2 = trace w ++ l
         ∧ (attemptsMade l ≤ remaining)%nat
         ∧ ((1 ≤ remaining)%nat → (1 ≤ attemptsMade l)%nat)
         ∧ (∀ e, run.1 = Throw e → attemptsMade l = remaining)
         ∧ slept l
           = if (attemptsMade l =? 0)%nat then 0
             else 500 * (2 ^ Z.of_nat (i + attemptsMade l - 1)
                         - 2 ^ Z.of_nat i).
Proof.
  induction remaining as [|remaining IH]; intros i lastErr w Hi.
  - simpl. exists []. rewrite app_nil_r. repeat split; try done; lia.
  - rewrite sendWithRetryFrom_S. unfold messagesCreate at 1.
    destruct (twilioCreate env (trace w) m) as [sid|err] eqn:E.
    + exists [MessageCreate m (Ok sid)]. cbn [fst snd].
      unfold attemptsMade. cbn [List.filter isAttempt length slept Nat.eqb].
      split; [done|]. split; [lia|]. split; [lia|].
      split; [done|].
      replace (i + 1 - 1)%nat with i by lia. lia.
    + set (w1 := emit (MessageCreate m (Throw err)) w).
      destruct remaining as [|remaining'].
      * (* the last attempt: no sleep *)
        assert ((i <? attempts)%nat = false) as ->
          by (apply Nat.ltb_ge; lia).
        exists [MessageCreate m (Throw err)]. cbn [sendWithRetryFrom throw].
        unfold attemptsMade. cbn [List.filter isAttempt length slept Nat.eqb].
        split; [done|]. split; [lia|]. split; [lia|].
        split; [done|].
        replace (i + 1 - 1)%nat with i by lia. lia.
      * assert ((i <? attempts)%nat = true) as ->
          by (apply Nat.ltb_lt; lia).
        set (w2 := emit (Sleep (2 ^ Z.of_nat i * 500)) w1).
        destruct (IH (S i) err w2) as (l & Ht & Hle & Hge & Hthrow & Hsl);
          [lia|].
        exists (MessageCreate m (Throw err)
                :: Sleep (2 ^ Z.of_nat i * 500) :: l).
        cbv zeta. split.
        { rewrite Ht. subst w2 w1. simpl. by rewrite <- !app_assoc. }
        change (attemptsMade (MessageCreate m (Throw err)
                              :: Sleep (2 ^ Z.of_nat i * 500) :: l))
          with (S (attemptsMade l)).
        split; [lia|]. split; [lia|]. split.
        { intros e He. by rewrite (Hthrow e He). }
        cbn [slept]. rewrite Hsl.
        assert (1 ≤ attemptsMade l)%nat as Hk by (apply Hge; lia).
        destruct (attemptsMade l) as [|k] eqn:Ek; [lia|].
        cbn [Nat.eqb].
        replace (S i + S k - 1)%nat with (S (i + k)) by lia.
        replace (i + S (S k) - 1)%nat with (S (i + k)) by lia.
        rewrite (pow2_succ i). lia.
Qed.

(** [sendWithRetry] around Twilio's [messages.create], for any number of
    attempts [n]: it makes at most [n] calls; it throws only after [n]
    failed calls and then nothing was delivered; when it returns, exactly
    one message was delivered; and after [k] calls it has slept
    [500 * (2^k - 2)] ms in all (never after the last call). *)
Theorem sendWithRetry_accounting (m : Message.t) (n : nat) (w : World) :
  let run := sendWithRetry (messagesCreate env m) n w in
  let l := newEffects w run.2 in
  (attemptsMade l ≤ n)%nat
  ∧ (∀ e, run.1 = Throw e → attemptsMade l = n ∧ deliveries l = 0%nat)
  ∧ (∀ sid, run.1 = Ok sid →
       (1 ≤ attemptsMade l)%nat ∧ deliveries l = 1%nat)
  ∧ slept l = if (attemptsMade l =? 0)%nat then 0
              else 500 * (2 ^ Z.of_nat (attemptsMade l) - 2).
Proof.
  cbv zeta. unfold sendWithRetry.
  destruct (sendWithRetryFrom_accounting m n n 1 Undefined w)
    as (l & Ht & Hle & Hge & Hthrow & Hsl); [lia|].
  destruct (sendWithRetryFrom_effects env m n n 1 Undefined w)
    as (_ & l' & Ht' & _ & Hd).
  assert (l' = l) as -> by (rewrite Ht in Ht'; by apply app_inv_head in Ht').
  rewrite (newEffects_app _ _ _ Ht).
  split; [done|]. split; [|split].
  - intros e He. rewrite He in Hd. split; [by apply (Hthrow e)|done].
  - intros sid Hs. rewrite Hs in Hd. split; [|done].
    apply Hge. destruct n; [|lia]. simpl in Hs. done.
  - rewrite Hsl. destruct (attemptsMade l) as [|k]; [done|].
    cbn [Nat.eqb]. replace (1 + S k - 1)%nat with (S k) by lia. done.
Qed.

(** A notification of the webhook or of the reminder sweep makes one,
    two or three Twilio calls, spends 0, 1000 or 3000 ms in backoff, and
    throws only after three failed calls. *)
Theorem sendByMethod_calls_and_backoff (b : Booking.t) (message : Js.str)
    (w : World) :
  let run := sendByMethod env b message w in
  let l := newEffects w run.2 in
  (1 ≤ attemptsMade l ≤ 3)%nat
  ∧ slept l = 500 * (2 ^ Z.of_nat (attemptsMade l) - 2)
  ∧ slept l ≤ 3000
  ∧ (∀ e, run.1 = Throw e → attemptsMade l = 3%nat ∧ slept l = 3000).
Proof.
  cbv zeta.
  assert (H : ∃ m, sendByMethod env b message w
                   = sendWithRetryFrom (messagesCreate env m) 3 1 3
                       Undefined w).
  { unfold sendByMethod, sendWhatsApp, sendSms, sendWithRetry.
    case_bool_decide; eauto. }
  destruct H as (m & ->).
  destruct (sendWithRetryFrom_accounting m 3 3 1 Undefined w)
    as (l & Ht & Hle & Hge & Hthrow & Hsl); [lia|].
  rewrite (newEffects_app _ _ _ Ht).
  assert (1 ≤ attemptsMade l)%nat as Hk by (apply Hge; lia).
  assert (Hs : slept l = 500 * (2 ^ Z.of_nat (attemptsMade l) - 2)).
  { rewrite Hsl. destruct (attemptsMade l) as [|k]; [lia|].
    cbn [Nat.eqb]. replace (1 + S k - 1)%nat with (S k) by lia. done. }
  split; [lia|]. split; [exact Hs|]. split.
  - rewrite Hs. destruct (attemptsMade l) as [|[|[|[|k]]]]; simpl; lia.
  - intros e He. rewrite Hs, (Hthrow e He). by split.
Qed.

End RetryAccounting.

(** ** WhatsApp dispatch *)

Section WhatsApp.

Context (env : Env).

Lemma messageFor_whatsapp b message :
  Booking.method b = Some (js "whatsapp") →
  messageFor env b message
  = whatsAppMessage (Booking.clientPhone b) message.
Proof. intros H. unfold messageFor. by rewrite bool_decide_eq_true_2. Qed.

Lemma attempts_viaWhatsApp phone message l :
  Forall (isAttemptOf (whatsAppMessage phone message)) l →
  Forall (viaWhatsApp phone) l.
Proof.
  intros H. eapply Forall_impl; [exact H|].
  intros [m r| | | | |]; simpl; try done.
  by intros ->.
Qed.

(** For a booking whose method is exactly "whatsapp", every message the
    webhook and the reminder sweep create is sent from the WhatsApp
    sender to "whatsapp:" followed by the booking's phone. *)
Theorem whatsapp_bookings_get_whatsapp (b : Booking.t) :
  Booking.method b = Some (js "whatsapp") →
  (∀ req id amount w,
     validCharge env req id amount →
     bookings w !! id = Some b →
     Forall (viaWhatsApp (Booking.clientPhone b))
       (newEffects w (paystackWebhook env req w).2))
  ∧ (∀ id w,
       bookings w !! id = Some b →
       Forall (viaWhatsApp (Booking.clientPhone b))
         (newEffects w (remindOne env (id, b) w).2)).
Proof.
  intros Hmeth. split.
  - intros req id amount w Hv Hb.
    rewrite (paystackWebhook_validCharge _ _ _ _ _ Hv).
    rewrite runTransaction_confirmPayment, Hb.
    destruct (Booking.isPaid b).
    { cbn [snd]. erewrite newEffects_written by (by rewrite app_nil_r).
      by repeat constructor. }
    pose proof (sendByMethod_effects env b (confirmationMessage b) w)
      as (_ & l & Ht & Hl & _).
    rewrite messageFor_whatsapp in Hl by done.
    apply attempts_viaWhatsApp in Hl.
    destruct (sendByMethod env b (confirmationMessage b) w) as [[sid|e] w1];
      simpl in Ht; cbn [snd].
    + rewrite (newEffects_written _ _ _ _ _ Ht).
      apply Forall_app. split; [done|]. by repeat constructor.
    + by rewrite (newEffects_app _ _ _ Ht).
  - intros id w Hb.
    destruct (remindOne_run env id b w Hb)
      as (r & w1 & l & _ & Ht & Hl & _ & ->).
    rewrite messageFor_whatsapp in Hl by done.
    apply attempts_viaWhatsApp in Hl.
    destruct r; cbn [snd].
    + rewrite (newEffects_written _ _ _ _ _ Ht).
      apply Forall_app. split; [done|]. by repeat constructor.
    + by rewrite (newEffects_app _ _ _ Ht).
Qed.

End WhatsApp.

(** ** The webhook on arbitrary requests *)

Section WebhookSafety.

Context (env : Env).

(** Every run of the webhook is of one of three kinds: an early answer
    that leaves the world alone (a guard, or a booking id that is not a
    document path); a transaction that finds nothing to do; or a
    transaction on an unpaid booking, which commits when the send returns
    and aborts when it throws. *)
Lemma paystackWebhook_run req w :
  (∃ code, paystackWebhook env req w = (code, w)
           ∧ (code = 405 ∨ code = 401 ∨ code = 403 ∨ code = 200
              ∨ code = 400 ∨ code = 500))
  ∨ paystackWebhook env req w
    = (200, written (TxCommit []) (bookings w) w)
  ∨ ∃ name id b r w1 l,
      eventBookingId (Request.body req) = Some name
      ∧ docRef env name = Ok (InBookings id)
      ∧ bookings w !! id = Some b
      ∧ Booking.isPaid b = false
      ∧ sendByMethod env b (confirmationMessage b) w = (r, w1)
      ∧ bookings w1 = bookings w
      ∧ trace w1 = trace w ++ l
      ∧ Forall (isAttemptOf (messageFor env b (confirmationMessage b))) l
      ∧ deliveries l = match r with Ok _ => 1 | Throw _ => 0 end%nat
      ∧ paystackWebhook env req w
        = match r with
          | Ok _ =>
              (200, written (TxCommit [id])
                      (<[id := Booking.markPaid (eventAmount req) b]>
                         (bookings w)) w1)
          | Throw _ => (500, w1)
          end.
Proof.
  unfold paystackWebhook, webhookTry.
  destruct (Js.eqb (Request.method req) (js "POST")); simpl;
    [|left; exists 405; auto].
  destruct (Js.truthy (Request.signature req)); simpl;
    [|left; exists 401; auto].
  destruct (Js.eqb _ (get (Request.signature req))); simpl;
    [|left; exists 403; auto].
  destruct (Js.eqb (Event.event (Request.body req)) (js "charge.success"));
    simpl; [|left; exists 200; auto 6].
  destruct (eventBookingId (Request.body req)) as [[|c name]|] eqn:Eid;
    simpl; [left; exists 400; auto 7| |left; exists 400; auto 7].
  unfold bind, ret, lift. fold (eventAmount req).
  destruct (docRef env (c :: name)) as [[id|]|err] eqn:Eref;
    [|right; left; reflexivity|left; exists 500; auto 8].
  right. rewrite runTransaction_confirmPayment.
  destruct (bookings w !! id) as [b|] eqn:Hb; [|left; reflexivity].
  destruct (Booking.isPaid b) eqn:Hp; [left; reflexivity|]. right.
  pose proof (sendByMethod_effects env b (confirmationMessage b) w)
    as (Hs & l & Ht & Hl & Hd).
  destruct (sendByMethod env b (confirmationMessage b) w) as [r w1]
    eqn:Hsend.
  simpl in Hs, Ht, Hd. exists (c :: name), id, b, r, w1, l.
  do 9 (split; [done|]). by destruct r.
Qed.

(** The guards of the webhook, in the order the handler applies them:
    a request that is not a POST is answered 405; a POST without signature
    header (or with an empty one) 401; a POST with a wrong signature 403;
    a correctly signed event other than "charge.success" 200; a correctly
    signed "charge.success" without booking id 400. In each of these cases
    the world is left as it was. *)
Theorem paystackWebhook_guard_chain (req : Request.t) (w : World) :
  let signed :=
    Request.signature req = Some (expectedSignature env req)
    ∧ expectedSignature env req ≠ [] in
  (Request.method req ≠ js "POST" → paystackWebhook env req w = (405, w))
  ∧ (Request.method req = js "POST" →
     Js.truthy (Request.signature req) = false →
     paystackWebhook env req w = (401, w))
  ∧ (Request.method req = js "POST" →
     Js.truthy (Request.signature req) = true →
     Request.signature req ≠ Some (expectedSignature env req) →
     paystackWebhook env req w = (403, w))
  ∧ (Request.method req = js "POST" → signed →
     Event.event (Request.body req) ≠ js "charge.success" →
     paystackWebhook env req w = (200, w))
  ∧ (Request.method req = js "POST" → signed →
     Event.event (Request.body req) = js "charge.success" →
     Js.truthy (eventBookingId (Request.body req)) = false →
     paystackWebhook env req w = (400, w)).
Proof.
  cbv zeta. unfold paystackWebhook, webhookTry.
  fold (expectedSignature env req).
  split; [|split; [|split; [|split]]].
  - intros Hm. destruct (Js.eqb _ _) eqn:E; [|done].
    by apply eqb_true in E.
  - intros -> Hs. by rewrite eqb_refl, Hs.
  - intros -> Ht Hs. rewrite eqb_refl, Ht. simpl.
    destruct (Js.eqb _ _) eqn:E; [|done]. apply eqb_true in E.
    destruct Hs. by rewrite (truthy_get _ Ht), E.
  - intros -> [Hs Hne] He. rewrite eqb_refl, Hs.
    destruct (expectedSignature env req) as [|c h]; [done|].
    cbn [Js.truthy negb get default]. rewrite eqb_refl. simpl.
    destruct (Js.eqb _ _) eqn:E; [|done]. by apply eqb_true in E.
  - intros -> [Hs Hne] He Hid. rewrite eqb_refl, Hs.
    destruct (expectedSignature env req) as [|c h]; [done|].
    cbn [Js.truthy negb get default]. rewrite eqb_refl, He, eqb_refl.
    simpl. by rewrite Hid.
Qed.

(** Whatever the request: the answer is one of the six status codes of the
    handler; the collection changes only under answer 200; no document
    is created or deleted; and a document either stays as it was or is
    the unpaid booking that the event's booking id refers to, replaced
    by its paid version. *)
Theorem paystackWebhook_frame (req : Request.t) (w : World) :
  let run := paystackWebhook env req w in
  (run.1 = 200 ∨ run.1 = 400 ∨ run.1 = 401 ∨ run.1 = 403 ∨ run.1 = 405
   ∨ run.1 = 500)
  ∧ trace w `prefix_of` trace run.2
  ∧ (run.1 ≠ 200 → bookings run.2 = bookings w)
  ∧ dom (bookings run.2) = dom (bookings w)
  ∧ ∀ id,
      bookings run.2 !! id = bookings w !! id
      ∨ ((∃ name, eventBookingId (Request.body req) = Some name
                  ∧ docRef env name = Ok (InBookings id))
         ∧ ∃ b, bookings w !! id = Some b
                ∧ Booking.isPaid b = false
                ∧ bookings run.2 !! id
                  = Some (Booking.markPaid (eventAmount req) b)).
Proof.
  cbv zeta.
  destruct (paystackWebhook_run req w)
    as [(code & -> & Hc)
       |[->|(name & id & b & r & w1 & l & Hid & Href & Hb & Hp & _ & Hs
             & Ht & _ & _ & ->)]]; cbn [fst snd].
  - split; [destruct Hc as [-> | [-> | [-> | [-> | [-> | ->]]]]]; auto 7|].
    repeat split; try done. by left.
  - split; [by left|]. split; [by apply prefix_app_r|].
    repeat split; try done. by left.
  - destruct r; cbn [fst snd bookings written trace].
    + split; [by left|]. split.
      { rewrite Ht, <- app_assoc. by apply prefix_app_r. }
      split; [done|]. split.
      { rewrite dom_insert_L. apply elem_of_dom_2 in Hb.
        apply subseteq_union_1_L. by apply singleton_subseteq_l. }
      intros j. destruct (decide (id = j)) as [<-|Hne].
      * right. split; [by exists name|]. exists b.
        by rewrite lookup_insert_eq.
      * left. by rewrite lookup_insert_ne.
    + split; [by do 5 right|]. split.
      { rewrite Ht. by apply prefix_app_r. }
      rewrite Hs. repeat split; try done. by left.
Qed.

Lemma paystackWebhook_keeps_paid req w id b :
  bookings w !! id = Some b →
  Booking.isPaid b = true →
  bookings (paystackWebhook env req w).2 !! id = Some b.
Proof.
  intros Hb Hp.
  destruct (paystackWebhook_run req w)
    as [(code & -> & Hc)
       |[->|(name & id' & b' & r & w1 & l & _ & _ & Hb' & Hp' & _ & Hs
             & _ & _ & _ & ->)]]; cbn [fst snd]; try done.
  destruct r; cbn [snd bookings written]; [|by rewrite Hs].
  rewrite lookup_insert_ne; [done|]. intros ->. congruence.
Qed.

(** Paid is final: a booking whose [paymentStatus] is Paid is left
    exactly as it is by any sequence of webhook deliveries, whatever the
    requests are and whatever Twilio does. *)
Theorem paid_booking_is_final (reqs : list Request.t) (w : World)
    (id : Js.str) (b : Booking.t) :
  bookings w !! id = Some b →
  Booking.isPaid b = true →
  bookings (deliverAll env reqs w) !! id = Some b.
Proof.
  revert w. induction reqs as [|req reqs IH]; intros w Hb Hp; [done|].
  apply IH; [|done]. by apply paystackWebhook_keeps_paid.
Qed.

Lemma markPaid_changes amount b :
  Booking.isPaid b = false → Booking.markPaid amount b ≠ b.
Proof.
  intros Hp Heq. apply (f_equal Booking.isPaid) in Heq.
  rewrite Hp in Heq. done.
Qed.

Lemma attemptsMade_sendByMethod b message w :
  (attemptsMade (newEffects w (sendByMethod env b message w).2) ≤ 3)%nat.
Proof.
  assert (H : ∃ m, sendByMethod env b message w
                   = sendWithRetryFrom (messagesCreate env m) 3 1 3
                       Undefined w).
  { unfold sendByMethod, sendWhatsApp, sendSms, sendWithRetry.
    case_bool_decide; eauto. }
  destruct H as (m & ->).
  destruct (sendWithRetryFrom_accounting env m 3 3 1 Undefined w)
    as (l & Ht & Hle & _); [lia|].
  by rewrite (newEffects_app _ _ _ Ht).
Qed.

(** One delivery, whatever the request: Twilio is called at most three
    times and at most one message is delivered; a message is delivered
    exactly when the collection changes (no payment is recorded without a
    delivered confirmation, and no confirmation is delivered without the
    payment being recorded); and then the answer is 200. *)
Theorem paystackWebhook_delivers_iff_records (req : Request.t) (w : World) :
  let run := paystackWebhook env req w in
  let l := newEffects w run.2 in
  (attemptsMade l ≤ 3)%nat
  ∧ (deliveries l ≤ 1)%nat
  ∧ (deliveries l = 1%nat ↔ bookings run.2 ≠ bookings w)
  ∧ (deliveries l = 1%nat → run.1 = 200).
Proof.
  cbv zeta.
  destruct (paystackWebhook_run req w)
    as [(code & -> & Hc)
       |[->|(name & id & b & r & w1 & l & Hid & Href & Hb & Hp & Hsend
             & Hs & Ht & _ & Hd & ->)]]; cbn [fst snd].
  - rewrite (newEffects_app w w []) by (by rewrite app_nil_r).
    repeat split; try done; cbn; lia.
  - erewrite newEffects_written by (by rewrite app_nil_r).
    repeat split; try done; cbn; lia.
  - pose proof (attemptsMade_sendByMethod b (confirmationMessage b) w) as Ha.
    rewrite Hsend in Ha. cbn [snd] in Ha.
    rewrite (newEffects_app _ _ _ Ht) in Ha.
    destruct r; cbn [fst snd].
    + rewrite (newEffects_written _ _ _ _ _ Ht).
      rewrite attemptsMade_app, deliveries_app, Hd.
      change (attemptsMade [TxCommit [id]]) with 0%nat.
      change (deliveries [TxCommit [id]]) with 0%nat.
      split; [lia|]. split; [lia|]. split; [|done].
      split; [|intros; lia]. intros _ Heq.
      apply (f_equal (fun s => s !! id)) in Heq.
      cbn [bookings written] in Heq.
      rewrite lookup_insert_eq, Hb in Heq.
      injection Heq as Heq. by apply markPaid_changes in Heq.
    + rewrite (newEffects_app _ _ _ Ht), Hd.
      split; [done|]. split; [lia|]. split; [|done].
      split; [done|]. intros Hne. by rewrite Hs in Hne.
Qed.

End WebhookSafety.

(** ** Booking creation, further *)

Section CreateBookingFurther.

Context (env : Env).

(** With all required fields present, a phone number the validator
    refuses makes [createBooking] throw "Invalid phone number", and an
    email address it refuses (the phone being fine) makes it throw
    "Invalid email address"; in both cases nothing is stored and Paystack
    is not called. The phone is looked at first. *)
Theorem createBooking_rejects_invalid_contact now d w :
  missingFields d = false →
  (∀ err, validatePhone (get (BookingData.clientPhone d)) = Throw err →
          err = Error (js "Invalid phone number")
          ∧ createBooking env now d w = (Throw err, w))
  ∧ (∀ p err,
       validatePhone (get (BookingData.clientPhone d)) = Ok p →
       validateEmail (get (BookingData.email d)) = Throw err →
       err = Error (js "Invalid email address")
       ∧ createBooking env now d w = (Throw err, w)).
Proof.
  intros Hm. split.
  - intros err Hp. split.
    + unfold validatePhone in Hp. destruct (negb _) in Hp; congruence.
    + unfold createBooking, bind, lift. by rewrite Hm, Hp.
  - intros p err Hp He. split.
    + unfold validateEmail in He. destruct (negb _) in He; congruence.
    + unfold createBooking, bind, lift. by rewrite Hm, Hp, He.
Qed.

(** Whatever the request: [createBooking] touches no document but the new
    one, never calls Twilio and never sleeps; it either does nothing at
    all and throws, or adds one Pending/Unpaid document and then calls
    Paystack once, for that document's id; and it returns a payment link
    only if the document is stored and the link is the one Paystack gave
    for it. *)
Theorem createBooking_frame now d w :
  let run := createBooking env now d w in
  let id := autoId env (bookings w) in
  let l := newEffects w run.2 in
  (∀ j, j ≠ id → bookings run.2 !! j = bookings w !! j)
  ∧ attemptsMade l = 0%nat
  ∧ slept l = 0
  ∧ ((l = [] ∧ run.2 = w ∧ ∃ err, run.1 = Throw err)
     ∨ ∃ b r,
         l = [DocAdd id; PaystackInit (initFor env d id) r]
         ∧ bookings run.2 = <[id := b]> (bookings w)
         ∧ Booking.status b = Booking.Pending
         ∧ Booking.paymentStatus b = Booking.Unpaid
         ∧ run.1 = match r with
                   | Ok response => Ok (Paystack.authorization_url response)
                   | Throw err => Throw err
                   end).
Proof.
  cbv zeta.
  destruct (createBooking_cases env now d w)
    as [[err ->]|(p & e & m & Hm & Hp & He & Hmeth)].
  - cbn [fst snd]. rewrite (newEffects_app w w []) by (by rewrite app_nil_r).
    repeat split; try done. left. eauto.
  - rewrite (createBooking_runs env now d p e m w Hm Hp He Hmeth). cbv zeta.
    cbn [fst snd].
    set (id := autoId env (bookings w)).
    set (b := storedBooking now d p e).
    set (w1 := written (DocAdd id) (<[id := b]> (bookings w)) w).
    set (r := paystackInitialize env (trace w1) (initFor env d id)).
    assert (Ht : trace (emit (PaystackInit (initFor env d id) r) w1)
                 = trace w
                   ++ [DocAdd id; PaystackInit (initFor env d id) r]).
    { simpl. by rewrite <- app_assoc. }
    rewrite (newEffects_app _ _ _ Ht).
    split; [|split; [done|split; [done|]]].
    + intros j Hj. simpl. by rewrite lookup_insert_ne.
    + right. exists b, r. done.
Qed.

(** From request to paid booking: when [createBooking] has returned a
    payment link, a valid charge event for the id it gave to Paystack,
    with Twilio accepting the confirmation, is answered 200 and leaves the
    booking Paid and Accepted, with [depositPaid = amount / 100], the
    normalized phone, the email and the method of the request. *)
Theorem booking_lifecycle now d w url w1 req amount sid :
  createBooking env now d w = (Ok url, w1) →
  validCharge env req (autoId env (bookings w)) amount →
  (∀ b, bookings w1 !! autoId env (bookings w) = Some b →
        (sendByMethod env b (confirmationMessage b) w1).1 = Ok sid) →
  ∃ b',
    (paystackWebhook env req w1).1 = 200
    ∧ bookings (paystackWebhook env req w1).2 !! autoId env (bookings w)
      = Some b'
    ∧ Booking.paymentStatus b' = Booking.Paid
    ∧ Booking.status b' = Booking.Accepted
    ∧ Booking.depositPaid b' = Some (amount # 100)%Q
    ∧ validatePhone (get (BookingData.clientPhone d))
      = Ok (Booking.clientPhone b')
    ∧ Booking.clientEmail b' = get (BookingData.email d)
    ∧ Booking.method b' = BookingData.method d.
Proof.
  intros Hrun Hv Hsend.
  destruct (createBooking_cases env now d w)
    as [[err Herr]|(p & e & m & Hm & Hp & He & Hmeth)].
  { rewrite Herr in Hrun. done. }
  rewrite (createBooking_runs env now d p e m w Hm Hp He Hmeth) in Hrun.
  cbv zeta in Hrun.
  set (id := autoId env (bookings w)) in *.
  set (b := storedBooking now d p e) in *.
  assert (Hb : bookings w1 !! id = Some b).
  { injection Hrun as _ <-. simpl. by rewrite lookup_insert_eq. }
  specialize (Hsend b Hb).
  rewrite (paystackWebhook_validCharge _ _ _ _ _ Hv).
  rewrite runTransaction_confirmPayment, Hb.
  change (Booking.isPaid b) with false. cbv iota.
  destruct (sendByMethod env b (confirmationMessage b) w1) as [[x|err] w2];
    [|done].
  exists (Booking.markPaid amount b). cbn [fst snd bookings written].
  rewrite lookup_insert_eq. repeat split; try done.
  unfold validateEmail in He. destruct (negb _) in He; [done|].
  simpl. congruence.
Qed.

End CreateBookingFurther.

(** ** The reminder sweep, further *)

Section RemindersFurther.

Context (env : Env).

Lemma docUpdates_app l1 l2 :
  docUpdates (l1 ++ l2) = (docUpdates l1 + docUpdates l2)%nat.
Proof. unfold docUpdates. by rewrite List.filter_app, length_app. Qed.

Lemma attempts_no_docUpdate m l :
  Forall (isAttemptOf m) l → docUpdates l = 0%nat.
Proof.
  unfold docUpdates. induction 1 as [|e l He _ IH]; [done|].
  destruct e; simpl in *; done.
Qed.

(** What one notification costs. *)
Lemma sendByMethod_budget b message w :
  ∃ l, trace (sendByMethod env b message w).2 = trace w ++ l
       ∧ bookings (sendByMethod env b message w).2 = bookings w
       ∧ docUpdates l = 0%nat
       ∧ (attemptsMade l ≤ 3)%nat
       ∧ 0 ≤ slept l ≤ 3000
       ∧ deliveries l = match (sendByMethod env b message w).1 with
                        | Ok _ => 1
                        | Throw _ => 0
                        end%nat.
Proof.
  destruct (sendByMethod_effects env b message w) as (Hs & l & Ht & Hl & Hd).
  exists l. split; [done|]. split; [done|].
  split; [by eapply attempts_no_docUpdate|].
  assert (H : ∃ m, sendByMethod env b message w
                   = sendWithRetryFrom (messagesCreate env m) 3 1 3
                       Undefined w).
  { unfold sendByMethod, sendWhatsApp, sendSms, sendWithRetry.
    case_bool_decide; eauto. }
  destruct H as (m & Heq). rewrite Heq in Ht.
  destruct (sendWithRetryFrom_accounting env m 3 3 1 Undefined w)
    as (l' & Ht' & Hle & Hge & _ & Hsl); [lia|].
  assert (l' = l) as -> by (rewrite Ht in Ht'; by apply app_inv_head in Ht').
  split; [done|]. split; [|done].
  rewrite Hsl. destruct (attemptsMade l) as [|[|[|[|k]]]]; simpl; lia.
Qed.

Lemma paystackWebhook_keeps_reminder_fields req w id b :
  bookings w !! id = Some b →
  ∃ b', bookings (paystackWebhook env req w).2 !! id = Some b'
        ∧ Booking.reminderSent b' = Booking.reminderSent b
        ∧ Booking.reminderAt b' = Booking.reminderAt b.
Proof.
  intros Hb.
  destruct (paystackWebhook_run env req w)
    as [(code & -> & _)
       |[->|(name & id' & b0 & r & w1 & l & _ & _ & Hb0 & _ & _ & Hs
             & _ & _ & _ & ->)]]; cbn [fst snd].
  - by exists b.
  - by exists b.
  - destruct r; cbn [snd bookings written]; [|exists b; by rewrite Hs].
    destruct (decide (id' = id)) as [->|Hne].
    + rewrite lookup_insert_eq. eexists. split; [done|].
      rewrite Hb in Hb0. injection Hb0 as <-. done.
    + exists b. by rewrite lookup_insert_ne.
Qed.

Lemma sweep_skips id b now w :
  bookings w !! id = Some b →
  due now b = false →
  bookings (sendFiveHourReminders env now w).2 !! id = Some b.
Proof.
  intros Hb Hd.
  destruct (forOf_remindOne env (queryDue now (bookings w))
              (queryDue_NoDup now (bookings w)) w)
    as (w' & Hrun & _ & Hframe & _).
  { intros j x H. by apply queryDue_spec in H as [H _]. }
  unfold sendFiveHourReminders. rewrite Hrun. cbn [snd].
  rewrite Hframe; [done|]. intros Hin.
  apply list_elem_of_fmap in Hin as ([j x] & -> & Hin).
  apply queryDue_spec in Hin as [Hx Hdx]. simpl in *. congruence.
Qed.

(** A booking that only [createBooking] and the webhook have written is
    never selected by the reminder sweep: neither handler writes
    [reminderSent] or [reminderAt], so after [createBooking] and any
    sequence of webhook deliveries the booking is not due at any time, and
    a sweep leaves it as it is. *)
Theorem created_booking_is_never_reminded now d w url w1 reqs later :
  createBooking env now d w = (Ok url, w1) →
  ∃ b,
    bookings (deliverAll env reqs w1) !! autoId env (bookings w) = Some b
    ∧ Booking.reminderSent b = None
    ∧ Booking.reminderAt b = None
    ∧ due later b = false
    ∧ bookings (sendFiveHourReminders env later
                  (deliverAll env reqs w1)).2
      !! autoId env (bookings w) = Some b.
Proof.
  intros Hrun.
  destruct (createBooking_cases env now d w)
    as [[err Herr]|(p & e & m & Hm & Hp & He & Hmeth)].
  { rewrite Herr in Hrun. done. }
  rewrite (createBooking_runs env now d p e m w Hm Hp He Hmeth) in Hrun.
  cbv zeta in Hrun.
  set (id := autoId env (bookings w)) in *.
  assert (Hinv : ∃ b, bookings w1 !! id = Some b
                      ∧ Booking.reminderSent b = None
                      ∧ Booking.reminderAt b = None).
  { exists (storedBooking now d p e). injection Hrun as _ <-. simpl.
    by rewrite lookup_insert_eq. }
  clear Hrun.
  assert (Hall : ∃ b, bookings (deliverAll env reqs w1) !! id = Some b
                      ∧ Booking.reminderSent b = None
                      ∧ Booking.reminderAt b = None).
  { revert w1 Hinv. induction reqs as [|req reqs IH]; intros w1 Hinv;
      [done|].
    apply IH. destruct Hinv as (b & Hb & Hs & Ha).
    destruct (paystackWebhook_keeps_reminder_fields req w1 id b Hb)
      as (b' & Hb' & Hs' & Ha').
    exists b'. split; [done|]. split; congruence. }
  destruct Hall as (b & Hb & Hs & Ha). exists b.
  assert (Hd : due later b = false).
  { unfold due. rewrite Hs. by rewrite andb_false_r. }
  do 4 (split; [done|]). by apply sweep_skips.
Qed.

Lemma queryDue_nil (now : Z) (s : gmap Js.str Booking.t) :
  (∀ id b, s !! id = Some b → due now b = false) → queryDue now s = [].
Proof.
  intros H. destruct (queryDue now s) as [|[id b] l] eqn:E; [done|].
  assert (Hin : (id, b) ∈ queryDue now s) by (rewrite E; left).
  apply queryDue_spec in Hin as [Hb Hd]. by rewrite (H id b Hb) in Hd.
Qed.

(** When no booking is due, the sweep does nothing at all: no message, no
    write, the world is as before. *)
Theorem sweep_without_due_bookings_is_a_noop (now : Z) (w : World) :
  (∀ id b, bookings w !! id = Some b → due now b = false) →
  sendFiveHourReminders env now w = (Ok tt, w).
Proof.
  intros H. unfold sendFiveHourReminders.
  by rewrite (queryDue_nil now (bookings w) H).
Qed.

(** The sweep changes nothing but [reminderSent], and only from false to
    true on a booking that was due: after a sweep every document is either
    the one that was there or that one with [reminderSent = true], and no
    document appears or disappears. *)
Theorem sweep_only_marks_due_bookings (now : Z) (w : World) :
  let w' := (sendFiveHourReminders env now w).2 in
  (∀ id, bookings w !! id = None → bookings w' !! id = None)
  ∧ ∀ id b,
      bookings w !! id = Some b →
      bookings w' !! id = Some b
      ∨ (due now b = true
         ∧ bookings w' !! id = Some (Booking.markReminded b)).
Proof.
  cbv zeta.
  destruct (forOf_remindOne env (queryDue now (bookings w))
              (queryDue_NoDup now (bookings w)) w)
    as (w' & Hrun & _ & Hframe & Hdocs).
  { intros j x H. by apply queryDue_spec in H as [H _]. }
  unfold sendFiveHourReminders. rewrite Hrun. cbn [snd].
  assert (Hnot : ∀ id, (∀ b, bookings w !! id = Some b → due now b = false)
                       → bookings w' !! id = bookings w !! id).
  { intros id H. apply Hframe. intros Hin.
    apply list_elem_of_fmap in Hin as ([j x] & -> & Hin).
    apply queryDue_spec in Hin as [Hx Hdx]. simpl in *.
    by rewrite (H x Hx) in Hdx. }
  split.
  - intros id Hnone. rewrite Hnot; [done|]. intros b Hb. congruence.
  - intros id b Hb. destruct (due now b) eqn:Hd.
    + destruct (Hdocs id b) as (w1 & r & w2 & _ & _ & _ & Hfin).
      { by apply queryDue_spec. }
      destruct r; [right|left]; done.
    + left. rewrite Hnot; [done|]. intros b' Hb'. congruence.
Qed.

(** The accounts of the loop over a snapshot whose documents are in the
    store. *)
Lemma forOf_remindOne_budget docs :
  NoDup docs.*1 →
  ∀ w,
    (∀ id b, (id, b) ∈ docs → bookings w !! id = Some b) →
    ∃ l, trace (forOf docs (remindOne env) w).2 = trace w ++ l
         ∧ deliveries l = docUpdates l
         ∧ (docUpdates l ≤ length docs)%nat
         ∧ (attemptsMade l ≤ 3 * length docs)%nat
         ∧ 0 ≤ slept l ≤ 3000 * Z.of_nat (length docs).
Proof.
  induction docs as [|[id0 b0] docs IH]; intros Hnd w Hin.
  - exists []. simpl. rewrite app_nil_r. repeat split; try done; lia.
  - simpl in Hnd. apply NoDup_cons in Hnd as [Hid0 Hnd].
    destruct (remindOne_run env id0 b0 w)
      as (r & w1 & l0 & Hsend & Ht & _ & Hs1 & Hone).
    { apply Hin. left. }
    destruct (sendByMethod_budget b0 (reminderMessage b0) w)
      as (l0' & Ht0 & _ & Hu0 & Ha0 & Hsl0 & Hd0).
    rewrite Hsend in Ht0, Hd0. cbn [fst snd] in Ht0, Hd0.
    assert (l0' = l0) as ->
      by (rewrite Ht in Ht0; by apply app_inv_head in Ht0).
    set (wA := match r with
               | Ok _ => written (DocUpdate id0)
                           (<[id0 := Booking.markReminded b0]> (bookings w)) w1
               | Throw _ => w1
               end) in *.
    destruct (IH Hnd wA) as (l & Htl & Hdl & Hul & Hal & Hsl).
    { intros id b Hd.
      assert (id ≠ id0).
      { intros ->. apply Hid0. apply list_elem_of_fmap. by exists (id0, b). }
      subst wA. destruct r; simpl.
      - rewrite lookup_insert_ne by done. apply Hin. by right.
      - rewrite Hs1. apply Hin. by right. }
    cbn [forOf]. unfold bind. rewrite Hone.
    exists (l0 ++ match r with Ok _ => [DocUpdate id0] | Throw _ => [] end
            ++ l).
    split.
    { rewrite Htl. subst wA. destruct r; simpl; rewrite Ht;
        by rewrite <- ?app_assoc. }
    rewrite !deliveries_app, !docUpdates_app, !attemptsMade_app, !slept_app.
    rewrite Hu0, Hd0, Hdl. cbn [length].
    destruct r; cbn; repeat split; lia.
Qed.

(** The books of a sweep balance: as many documents are marked as
    messages were delivered; there are at most as many as bookings in the
    batch; and the sweep makes at most three Twilio calls and sleeps at
    most 3000 ms per booking of the batch. *)
Theorem sweep_accounts (now : Z) (w : World) :
  let l := newEffects w (sendFiveHourReminders env now w).2 in
  let batch := length (queryDue now (bookings w)) in
  deliveries l = docUpdates l
  ∧ (docUpdates l ≤ batch)%nat
  ∧ (attemptsMade l ≤ 3 * batch)%nat
  ∧ 0 ≤ slept l ≤ 3000 * Z.of_nat batch.
Proof.
  cbv zeta.
  destruct (forOf_remindOne_budget (queryDue now (bookings w))
              (queryDue_NoDup now (bookings w)) w) as (l & Ht & H).
  { intros j x Hin. by apply queryDue_spec in Hin as [Hin _]. }
  unfold sendFiveHourReminders. by rewrite (newEffects_app _ _ _ Ht).
Qed.

End RemindersFurther.

(** * Properties of the older variants *)

Section Variants.

Context (env : Env) (stringify : Event.t → Js.str).

(** The senders of the second variant make one call and never throw. *)
Lemma part002_sendByMethod_run b message w :
  Part002.sendByMethod env b message w
  = (Ok tt,
     emit (MessageCreate (messageFor env b message)
             (twilioCreate env (trace w) (messageFor env b message))) w).
Proof.
  unfold Part002.sendByMethod, messageFor, Part002.sendWhatsApp,
    Part002.sendSms, whatsAppMessage, smsMessage.
  case_bool_decide; unfold tryCatch, bind, messagesCreate, ret;
    by destruct (twilioCreate env (trace w) _).
Qed.

Lemma part002_validCharge req id amount w :
  validChargeJson env stringify req id amount →
  Part002.paystackWebhook env stringify req w =
  match runTransaction
          (Part002.confirmPayment env (InBookings id) amount) w with
  | (Ok _, w') => (200, w')
  | (Throw _, w') => (500, w')
  end.
Proof.
  intros (Hm & Hs & He & Hd & Hid & Href).
  unfold Part002.paystackWebhook, Part002.webhookTry.
  rewrite Hm, eqb_refl, Hs, He, eqb_refl, Hd.
  rewrite bool_decide_eq_true_2 by done.
  destruct id as [|c id']; [done|].
  cbn [negb mbind option_bind Event.metadata Event.bookingId Js.truthy
       Event.amount get default].
  unfold bind, ret, lift, id. rewrite Href.
  by destruct (runTransaction _ w) as [[[]|e] w'].
Qed.

(** In the variant whose senders swallow errors, a valid charge event for
    an unpaid booking is answered 200 and recorded (Paid, Accepted,
    [depositPaid = amount / 100]) after exactly one Twilio call, whatever
    Twilio answers: a failed confirmation neither fails the delivery nor
    keeps the payment from being recorded. *)
Theorem part002_payment_recorded_whatever_twilio_answers
    req id amount b w :
  validChargeJson env stringify req id amount →
  bookings w !! id = Some b →
  Booking.isPaid b = false →
  let m := messageFor env b (Part002.confirmationMessage b) in
  Part002.paystackWebhook env stringify req w
  = (200,
     written (TxCommit [id])
       (<[id := Booking.markPaid amount b]> (bookings w))
       (emit (MessageCreate m (twilioCreate env (trace w) m)) w)).
Proof.
  intros Hv Hb Hp. cbv zeta. rewrite (part002_validCharge _ _ _ _ Hv).
  unfold runTransaction, Part002.confirmPayment, bind, txGet, txUpdate, ret.
  rewrite Hb, Hp, part002_sendByMethod_run.
  cbn [foldl applyWrite fmap list_fmap fst snd bookings emit].
  do 2 f_equal. unfold applyWrite. cbn [fst snd].
  apply map_eq; intros j. rewrite lookup_alter.
  destruct (decide (id = j)) as [<-|Hne].
  - by rewrite lookup_insert_eq, Hb.
  - by rewrite lookup_insert_ne.
Qed.

(** In the older variants a valid charge event for a booking the store
    does not have makes the transaction throw "Booking not found": the
    delivery is answered 500 and the world is left as it was; an already
    paid booking is answered 200 without any message or change. *)
Theorem part002_unknown_booking_is_an_error req id amount w :
  validChargeJson env stringify req id amount →
  (bookings w !! id = None →
   Part002.paystackWebhook env stringify req w = (500, w))
  ∧ (∀ b, bookings w !! id = Some b → Booking.isPaid b = true →
          Part002.paystackWebhook env stringify req w
          = (200, written (TxCommit []) (bookings w) w)).
Proof.
  intros Hv. rewrite (part002_validCharge _ _ _ _ Hv).
  unfold runTransaction, Part002.confirmPayment, bind, txGet, ret, throw.
  split.
  - by intros ->.
  - intros b -> ->. done.
Qed.

(** One iteration: one Twilio call; then the log entry and the mark when
    the booking has a method, and neither when it has none. *)
Lemma part002_remindOne_run id b s :
  bookings (Part002.world s) !! id = Some b →
  let w := Part002.world s in
  let m := messageFor env b (Part002.reminderMessage b) in
  let w1 := emit (MessageCreate m (twilioCreate env (trace w) m)) w in
  Part002.remindOne env (id, b) s
  = match Booking.method b with
    | Some method =>
        {| Part002.world :=
             written (DocUpdate id)
               (<[id := Booking.markReminded b]> (bookings w)) w1;
           Part002.reminderLogs :=
             Part002.reminderLogs s
             ++ [{| Part002.logBookingId := id;
                    Part002.logClientName := Booking.clientName b;
                    Part002.logPhone := Booking.clientPhone b;
                    Part002.logMethod := Some method;
                    Part002.logType := js "5-hour" |}] |}
    | None =>
        {| Part002.world := w1;
           Part002.reminderLogs := Part002.reminderLogs s |}
    end.
Proof.
  intros Hb. cbv zeta. unfold Part002.remindOne. cbn [fst snd].
  rewrite part002_sendByMethod_run. unfold Part002.logsAdd, docUpdate.
  cbn [Part002.logMethod bookings emit].
  destruct (Booking.method b); [|done]. by rewrite Hb.
Qed.

Lemma part002_loop docs :
  NoDup docs.*1 →
  ∀ s,
    (∀ id b, (id, b) ∈ docs →
             bookings (Part002.world s) !! id = Some b) →
    let s' := foldl (fun s doc => Part002.remindOne env doc s) s docs in
    let logged := List.filter Part002.loggable docs in
    (∀ id b, (id, b) ∈ docs →
             bookings (Part002.world s') !! id
             = Some match Booking.method b with
                    | Some _ => Booking.markReminded b
                    | None => b
                    end)
    ∧ (∀ id, id ∉ docs.*1 →
             bookings (Part002.world s') !! id
             = bookings (Part002.world s) !! id)
    ∧ length (Part002.reminderLogs s')
      = (length (Part002.reminderLogs s) + length logged)%nat
    ∧ ∃ l, trace (Part002.world s') = trace (Part002.world s) ++ l
           ∧ attemptsMade l = length docs
           ∧ docUpdates l = length logged.
Proof.
  induction docs as [|[id0 b0] docs IH]; intros Hnd s Hin.
  - cbv zeta. simpl. split; [|split; [|split]].
    + intros id b H. by apply elem_of_nil in H.
    + done.
    + lia.
    + exists []. by rewrite app_nil_r.
  - simpl in Hnd. apply NoDup_cons in Hnd as [Hid0 Hnd].
    pose proof (part002_remindOne_run id0 b0 s) as Hone.
    cbv zeta in Hone. cbn [foldl]. rewrite Hone by (apply Hin; left).
    clear Hone.
    set (w := Part002.world s) in *.
    set (m := messageFor env b0 (Part002.reminderMessage b0)) in *.
    set (w1 := emit (MessageCreate m (twilioCreate env (trace w) m)) w).
    set (sA := match Booking.method b0 with
               | Some _ => _
               | None => _
               end).
    assert (HA0 : bookings (Part002.world sA) !! id0
                  = Some match Booking.method b0 with
                         | Some _ => Booking.markReminded b0
                         | None => b0
                         end).
    { subst sA. destruct (Booking.method b0);
        cbn [Part002.world bookings written emit].
      - by rewrite lookup_insert_eq.
      - apply Hin. left. }
    assert (HA : ∀ id, id ≠ id0 →
                       bookings (Part002.world sA) !! id = bookings w !! id).
    { intros id Hne. subst sA. destruct (Booking.method b0);
        cbn [Part002.world bookings written emit]; [|done].
      by rewrite lookup_insert_ne. }
    assert (HlogsA : length (Part002.reminderLogs sA)
                     = (length (Part002.reminderLogs s)
                        + length (List.filter Part002.loggable [(id0, b0)]))%nat).
    { subst sA. unfold Part002.loggable. cbn [List.filter snd].
      destruct (Booking.method b0); cbn [Part002.reminderLogs length].
      - rewrite length_app. simpl. lia.
      - lia. }
    assert (HtA : ∃ lA, trace (Part002.world sA) = trace w ++ lA
                        ∧ attemptsMade lA = 1%nat
                        ∧ docUpdates lA
                          = length (List.filter Part002.loggable
                                      [(id0, b0)])).
    { subst sA w1. unfold Part002.loggable. cbn [List.filter snd].
      destruct (Booking.method b0);
        cbn [Part002.world trace written emit length].
      - exists [MessageCreate m (twilioCreate env (trace w) m);
                DocUpdate id0].
        by rewrite <- app_assoc.
      - by exists [MessageCreate m (twilioCreate env (trace w) m)]. }
    clearbody sA.
    destruct (IH Hnd sA) as (Hdocs & Hframe & Hlogs & l & Ht & Ha & Hu).
    { intros id b Hd. rewrite HA.
      - apply Hin. by right.
      - intros ->. apply Hid0. apply list_elem_of_fmap. by exists (id0, b). }
    cbv zeta in Hdocs, Hframe, Hlogs, Ht, Ha, Hu.
    destruct HtA as (lA & HtA & HaA & HuA).
    change ((id0, b0) :: docs) with ([(id0, b0)] ++ docs).
    cbv zeta. rewrite List.filter_app, !length_app.
    split; [|split; [|split]].
    + intros id b Hd. apply elem_of_app in Hd as [Hd|Hd].
      * apply list_elem_of_singleton in Hd as [= -> ->].
        by rewrite Hframe.
      * by apply Hdocs.
    + intros id Hnotin. rewrite fmap_app in Hnotin.
      apply not_elem_of_app in Hnotin as [Hne Hnotin].
      rewrite Hframe by done. apply HA. intros ->. apply Hne. by left.
    + rewrite Hlogs, HlogsA. lia.
    + exists (lA ++ l). split.
      { by rewrite Ht, HtA, <- app_assoc. }
      rewrite attemptsMade_app, docUpdates_app, HaA, HuA, Ha, Hu. done.
Qed.

(** In the variant whose senders swallow errors, a sweep makes a single
    Twilio call for every due booking, and does not look at what Twilio
    answers. A due booking that has a method is then logged and marked
    [reminderSent = true]: a reminder that failed to go out is recorded as
    sent and is not tried again. A due booking without a method is
    neither logged nor marked (the store refuses its log entry), so it
    stays due. Other bookings are left alone. *)
Theorem part002_sweep_marks_even_when_twilio_fails (now : Z)
    (s : Part002.Studio) :
  let s' := Part002.sendFiveHourReminders env now s in
  let batch := queryDue now (bookings (Part002.world s)) in
  (∀ id b,
     bookings (Part002.world s) !! id = Some b →
     due now b = true →
     match Booking.method b with
     | Some _ =>
         bookings (Part002.world s') !! id = Some (Booking.markReminded b)
         ∧ ∀ later, due later (Booking.markReminded b) = false
     | None =>
         bookings (Part002.world s') !! id = Some b
         ∧ ∀ later, now ≤ later → due later b = true
     end)
  ∧ (∀ id b,
       bookings (Part002.world s) !! id = Some b →
       due now b = false →
       bookings (Part002.world s') !! id = Some b)
  ∧ length (Part002.reminderLogs s')
    = (length (Part002.reminderLogs s)
       + length (List.filter Part002.loggable batch))%nat
  ∧ attemptsMade (newEffects (Part002.world s) (Part002.world s'))
    = length batch
  ∧ docUpdates (newEffects (Part002.world s) (Part002.world s'))
    = length (List.filter Part002.loggable batch).
Proof.
  cbv zeta. unfold Part002.sendFiveHourReminders.
  destruct (part002_loop (queryDue now (bookings (Part002.world s)))
              (queryDue_NoDup now _) s)
    as (Hdocs & Hframe & Hlogs & l & Ht & Ha & Hu).
  { intros j x H. by apply queryDue_spec in H as [H _]. }
  cbv zeta in Hdocs, Hframe, Hlogs, Ht.
  split; [|split; [|split; [|split]]].
  - intros id b Hb Hd.
    assert (Hin : (id, b) ∈ queryDue now (bookings (Part002.world s)))
      by (by apply queryDue_spec).
    specialize (Hdocs id b Hin).
    destruct (Booking.method b); (split; [done|]); intros later.
    + unfold due. simpl. by rewrite andb_false_r.
    + intros Hle. unfold due in *.
      destruct (Booking.isAccepted b); [|done].
      destruct (bool_decide _); [|done].
      destruct (Booking.reminderAt b) as [t|]; [|done]. simpl in *.
      apply Z.leb_le. apply Z.leb_le in Hd. lia.
  - intros id b Hb Hd. rewrite Hframe; [done|]. intros Hin.
    apply list_elem_of_fmap in Hin as ([j x] & -> & Hin).
    apply queryDue_spec in Hin as [Hx Hdx]. simpl in *. congruence.
  - done.
  - by rewrite (newEffects_app _ _ _ Ht).
  - by rewrite (newEffects_app _ _ _ Ht).
Qed.

(** The third variant destructures the intake fields from the request
    object that [onCall] passes, not from its [data]: whatever the
    payload, the presence check fails, and the call ends in
    "Could not start payment" with nothing stored, Paystack not called
    and no message sent. *)
Theorem part003_createBooking_hides_the_cause now request w :
  missingFields (Part003.destructured request) = true
  ∧ createBooking env now (Part003.destructured request) w
    = (Throw (Error (js "Missing required fields")), w)
  ∧ Part003.createBooking env now request w
    = (Throw (Error (js "Could not start payment")), w).
Proof. done. Qed.

Lemma part003_validCharge req id amount w :
  validChargeJson env stringify req id amount →
  Part003.paystackWebhook env stringify req w =
  match runTransaction
          (Part003.confirmPayment env (InBookings id) amount) w with
  | (Ok _, w') => (200, w')
  | (Throw _, w') => (500, w')
  end.
Proof.
  intros (Hm & Hs & He & Hd & Hid & Href).
  unfold Part003.paystackWebhook, Part003.webhookTry.
  rewrite Hm, eqb_refl, Hs, He, eqb_refl, Hd.
  rewrite bool_decide_eq_true_2 by done.
  destruct id as [|c id']; [done|].
  cbn [negb mbind option_bind Event.metadata Event.bookingId Js.truthy
       Event.amount get default].
  unfold bind, ret, lift, id. rewrite Href.
  by destruct (runTransaction _ w) as [[[]|e] w'].
Qed.

(** In the variant whose sender makes a single attempt and lets the error
    out, a valid charge event for an unpaid booking leads to exactly one
    Twilio call; when Twilio accepts the message the payment is recorded
    (without a [verified] field) and the answer is 200; when Twilio
    refuses it, the transaction aborts, nothing is recorded, and the
    answer is 500. *)
Theorem part003_single_attempt_decides_the_payment req id amount b w :
  validChargeJson env stringify req id amount →
  bookings w !! id = Some b →
  Booking.isPaid b = false →
  let m := messageFor env b (confirmationMessage b) in
  let r := twilioCreate env (trace w) m in
  let w1 := emit (MessageCreate m r) w in
  Part003.paystackWebhook env stringify req w
  = match r with
    | Ok _ =>
        (200, written (TxCommit [id])
                (<[id := Part003.markPaid amount b]> (bookings w)) w1)
    | Throw _ => (500, w1)
    end
  ∧ Booking.verified (Part003.markPaid amount b) = Booking.verified b.
Proof.
  intros Hv Hb Hp. cbv zeta. split; [|done].
  rewrite (part003_validCharge _ _ _ _ Hv).
  unfold runTransaction, Part003.confirmPayment, bind, txGet, txUpdate, ret.
  rewrite Hb, Hp.
  unfold Part003.sendMessage, messageFor, whatsAppMessage, smsMessage.
  case_bool_decide; unfold bind, messagesCreate, ret;
    (destruct (twilioCreate env (trace w) _); [|done]);
    cbn [foldl applyWrite fmap list_fmap fst snd bookings emit];
    do 2 f_equal; unfold applyWrite; cbn [fst snd];
    apply map_eq; intros j; rewrite lookup_alter;
    (destruct (decide (id = j)) as [<-|Hne];
     [by rewrite lookup_insert_eq, Hb|by rewrite lookup_insert_ne]).
Qed.

End Variants.

(** * Properties of the SMS relay *)

(** The relay answers 400 without calling Twilio when the phone or the
    message is missing or empty; otherwise it makes exactly one call, to
    "+" followed by the phone as given, and answers 200 with
    [success = true] when Twilio accepts and 500 with [success = false]
    when it refuses. It never touches the bookings. *)
Theorem sendSMS_relay (env : Env) (TWILIO_PHONE : Js.str)
    (phone message : option Js.str) (w : World) :
  let run := SmsServer.sendSMS env TWILIO_PHONE phone message w in
  let l := newEffects w run.2 in
  let m := {| Message.body := get message;
              Message.from := TWILIO_PHONE;
              Message.to := js "+" ++ get phone |} in
  bookings run.2 = bookings w
  ∧ (SmsServer.success run.1 = true ↔ SmsServer.status run.1 = 200)
  ∧ (SmsServer.status run.1 = 200 ↔ deliveries l = 1%nat)
  ∧ (Js.truthy phone = false ∨ Js.truthy message = false →
     run = ({| SmsServer.status := 400; SmsServer.success := false |}, w))
  ∧ (Js.truthy phone = true → Js.truthy message = true →
     l = [MessageCreate m (twilioCreate env (trace w) m)]
     ∧ SmsServer.status run.1
       = match twilioCreate env (trace w) m with
         | Ok _ => 200
         | Throw _ => 500
         end).
Proof.
  cbv zeta. unfold SmsServer.sendSMS, messagesCreate.
  destruct (Js.truthy phone), (Js.truthy message); cbn [negb orb].
  - set (m := {| Message.body := _; Message.from := _; Message.to := _ |}).
    assert (Ht : ∀ r, trace (emit (MessageCreate m r) w)
                      = trace w ++ [MessageCreate m r]) by done.
    destruct (twilioCreate env (trace w) m) as [sid|err] eqn:E;
      cbn [fst snd]; rewrite (newEffects_app _ _ _ (Ht _));
      repeat split; try done; intros; by intuition.
  - cbn [fst snd].
    rewrite (newEffects_app w w []) by (by rewrite app_nil_r).
    repeat split; try done; intros; by intuition.
  - cbn [fst snd].
    rewrite (newEffects_app w w []) by (by rewrite app_nil_r).
    repeat split; try done; intros; by intuition.
  - cbn [fst snd].
    rewrite (newEffects_app w w []) by (by rewrite app_nil_r).
    repeat split; try done; intros; by intuition.
Qed.

(** * The further properties on the concrete studio *)

Import Replay.

Lemma validateEmail_accepts_exactly_the_shape_witness :
  validateEmail (js "a@b.com") = Ok (js "a@b.com")
  ∧ emailShape (js "a@b.com").
Proof.
  split; [reflexivity|].
  apply (proj1 (proj1 (validateEmail_accepts_exactly_the_shape
                         (js "a@b.com")))).
  reflexivity.
Defined.

Lemma validateEmail_accepted_address_witness :
  validateEmail (js "thandi@example.com") = Ok (js "thandi@example.com")
  ∧ countAt (js "thandi@example.com") = 1%nat.
Proof.
  split; [reflexivity|].
  exact (proj1 (proj2 (validateEmail_accepted_address
                         (js "thandi@example.com")
                         (js "thandi@example.com") eq_refl))).
Defined.

Lemma validatePhone_result_format_witness :
  validatePhone (js "082 123 4567") = Ok (js "+27821234567")
  ∧ ∃ p, js "+27821234567" = js "+" ++ p
         ∧ allDigits p
         ∧ (11 ≤ length p ≤ 15)%nat
         ∧ Js.startsWith (js "0") p = false.
Proof.
  split; [reflexivity|].
  exact (validatePhone_result_format (js "082 123 4567")
           (js "+27821234567") eq_refl).
Defined.

Lemma validatePhone_ignores_formatting_witness :
  List.filter Re.digit (js "082 123 4567")
  = List.filter Re.digit (js "(082) 123-4567")
  ∧ validatePhone (js "082 123 4567") = validatePhone (js "(082) 123-4567").
Proof.
  split; [reflexivity|].
  exact (validatePhone_ignores_formatting (js "082 123 4567")
           (js "(082) 123-4567") eq_refl).
Defined.

Lemma validatePhone_local_is_international_witness :
  List.filter Re.digit (js "082 123 4567") = js "0" ++ js "821234567"
  ∧ validatePhone (js "082 123 4567")
    = validatePhone (js "+27" ++ js "821234567").
Proof.
  split; [reflexivity|].
  exact (validatePhone_local_is_international (js "082 123 4567")
           (js "821234567") eq_refl).
Defined.

Lemma sendWithRetry_accounting_witness :
  (sendWithRetry
     (messagesCreate (studio twilioFlaky)
        (smsMessage (studio twilioFlaky) (js "+27821234567") (js "hi")))
     3 world0).1 = Ok (js "SM0001")
  ∧ deliveries
      (newEffects world0
         (sendWithRetry
            (messagesCreate (studio twilioFlaky)
               (smsMessage (studio twilioFlaky) (js "+27821234567")
                  (js "hi")))
            3 world0).2) = 1%nat.
Proof.
  split; [reflexivity|].
  exact (proj2 (proj1 (proj2 (proj2
           (sendWithRetry_accounting (studio twilioFlaky)
              (smsMessage (studio twilioFlaky) (js "+27821234567")
                 (js "hi")) 3 world0)))
           (js "SM0001") eq_refl)).
Defined.

Lemma sendByMethod_calls_and_backoff_witness :
  (sendByMethod (studio twilioDown) lerato (js "hi") world0).1
  = Throw (Error (js "ETIMEDOUT"))
  ∧ attemptsMade
      (newEffects world0
         (sendByMethod (studio twilioDown) lerato (js "hi") world0).2)
    = 3%nat
  ∧ slept
      (newEffects world0
         (sendByMethod (studio twilioDown) lerato (js "hi") world0).2)
    = 3000.
Proof.
  split; [reflexivity|].
  exact (proj2 (proj2 (proj2
           (sendByMethod_calls_and_backoff (studio twilioDown) lerato
              (js "hi") world0)))
           (Error (js "ETIMEDOUT")) eq_refl).
Defined.

Lemma whatsapp_bookings_get_whatsapp_witness :
  Booking.method lerato = Some (js "whatsapp")
  ∧ bookings world0 !! b2 = Some lerato
  ∧ Forall (viaWhatsApp (Booking.clientPhone lerato))
      (newEffects world0
         (remindOne (studio twilioUp) (b2, lerato) world0).2).
Proof.
  split; [reflexivity|]. split; [reflexivity|].
  exact (proj2 (whatsapp_bookings_get_whatsapp (studio twilioUp) lerato
                  eq_refl) b2 world0 eq_refl).
Defined.

Lemma paystackWebhook_guard_chain_witness :
  Request.method (forged b1) = js "POST"
  ∧ Js.truthy (Request.signature (forged b1)) = true
  ∧ Request.signature (forged b1)
    ≠ Some (expectedSignature (studio twilioUp) (forged b1))
  ∧ paystackWebhook (studio twilioUp) (forged b1) world0 = (403, world0).
Proof.
  assert (H : Request.signature (forged b1)
              ≠ Some (expectedSignature (studio twilioUp) (forged b1))).
  { vm_compute. discriminate. }
  split; [reflexivity|]. split; [reflexivity|]. split; [exact H|].
  exact (proj1 (proj2 (proj2
           (paystackWebhook_guard_chain (studio twilioUp) (forged b1)
              world0)))
           eq_refl eq_refl H).
Defined.

Lemma paystackWebhook_frame_witness :
  (paystackWebhook (studio twilioDown) (charge b1) world0).1 ≠ 200
  ∧ bookings (paystackWebhook (studio twilioDown) (charge b1) world0).2
    = bookings world0.
Proof.
  assert (H : (paystackWebhook (studio twilioDown) (charge b1) world0).1
              ≠ 200).
  { vm_compute. discriminate. }
  split; [exact H|].
  exact (proj1 (proj2 (proj2
           (paystackWebhook_frame (studio twilioDown) (charge b1) world0)))
           H).
Defined.

(** A booking id with a leading slash refers to the same document as the
    id without it. *)
Example charge_with_leading_slash :
  eventBookingId (Request.body (charge (js "/b1"))) = Some (js "/b1")
  ∧ docRef (studio twilioUp) (js "/b1") = Ok (InBookings b1)
  ∧ bookings (paystackWebhook (studio twilioUp) (charge (js "/b1"))
                world0).2 !! b1
    = Some (Booking.markPaid 85000 thandi).
Proof. vm_compute. done. Qed.

Lemma paid_booking_is_final_witness :
  bookings world0 !! b2 = Some lerato
  ∧ Booking.isPaid lerato = true
  ∧ bookings (deliverAll (studio twilioUp) [charge b2; charge b1; charge b2]
                world0) !! b2 = Some lerato.
Proof.
  split; [reflexivity|]. split; [reflexivity|].
  exact (paid_booking_is_final (studio twilioUp)
           [charge b2; charge b1; charge b2] world0 b2 lerato
           eq_refl eq_refl).
Defined.

Lemma paystackWebhook_delivers_iff_records_witness :
  deliveries
    (newEffects world0
       (paystackWebhook (studio twilioUp) (charge b1) world0).2) = 1%nat
  ∧ (paystackWebhook (studio twilioUp) (charge b1) world0).1 = 200
  ∧ bookings (paystackWebhook (studio twilioUp) (charge b1) world0).2
    ≠ bookings world0.
Proof.
  assert (H : deliveries
                (newEffects world0
                   (paystackWebhook (studio twilioUp) (charge b1) world0).2)
              = 1%nat) by reflexivity.
  pose proof (paystackWebhook_delivers_iff_records (studio twilioUp)
                (charge b1) world0) as (_ & _ & Hiff & Hcode).
  split; [exact H|]. split; [exact (Hcode H)|exact (proj1 Hiff H)].
Defined.

Lemma createBooking_rejects_invalid_contact_witness :
  missingFields shortPhone = false
  ∧ validatePhone (get (BookingData.clientPhone shortPhone))
    = Throw (Error (js "Invalid phone number"))
  ∧ createBooking (studio twilioUp) 1000 shortPhone world0
    = (Throw (Error (js "Invalid phone number")), world0).
Proof.
  split; [reflexivity|]. split; [reflexivity|].
  exact (proj2 (proj1 (createBooking_rejects_invalid_contact
                         (studio twilioUp) 1000 shortPhone world0 eq_refl)
                  (Error (js "Invalid phone number")) eq_refl)).
Defined.

Lemma createBooking_frame_witness :
  b1 ≠ autoId (studio twilioUp) (bookings world0)
  ∧ bookings (createBooking (studio twilioUp) 1000 intakeSms world0).2 !! b1
    = bookings world0 !! b1.
Proof.
  assert (H : b1 ≠ autoId (studio twilioUp) (bookings world0)).
  { vm_compute. discriminate. }
  split; [exact H|].
  exact (proj1 (createBooking_frame (studio twilioUp) 1000 intakeSms world0)
           b1 H).
Defined.

Lemma afterBooking_run :
  createBooking (studio twilioUp) 1000 intakeSms world0
  = (Ok (js "https://checkout.paystack.com/xxx"), afterBooking).
Proof. vm_compute. reflexivity. Qed.

Lemma booking_lifecycle_witness :
  createBooking (studio twilioUp) 1000 intakeSms world0
  = (Ok (js "https://checkout.paystack.com/xxx"), afterBooking)
  ∧ validCharge (studio twilioUp) (charge newId)
      (autoId (studio twilioUp) (bookings world0)) 85000
  ∧ ∃ b',
      (paystackWebhook (studio twilioUp) (charge newId) afterBooking).1
      = 200
      ∧ bookings
          (paystackWebhook (studio twilioUp) (charge newId) afterBooking).2
        !! autoId (studio twilioUp) (bookings world0) = Some b'
      ∧ Booking.paymentStatus b' = Booking.Paid
      ∧ Booking.status b' = Booking.Accepted
      ∧ Booking.depositPaid b' = Some (85000 # 100)%Q.
Proof.
  assert (Hv : validCharge (studio twilioUp) (charge newId)
                 (autoId (studio twilioUp) (bookings world0)) 85000).
  { change (autoId (studio twilioUp) (bookings world0)) with newId.
    by apply charge_valid. }
  assert (Hs : ∀ b,
             bookings afterBooking
             !! autoId (studio twilioUp) (bookings world0) = Some b →
             (sendByMethod (studio twilioUp) b (confirmationMessage b)
                afterBooking).1 = Ok (js "SM0001")).
  { intros b Hb. vm_compute in Hb. injection Hb as <-. reflexivity. }
  split; [exact afterBooking_run|]. split; [exact Hv|].
  destruct (booking_lifecycle (studio twilioUp) 1000 intakeSms world0 _ _
              (charge newId) 85000 (js "SM0001") afterBooking_run Hv Hs)
    as (b' & H1 & H2 & H3 & H4 & H5 & _).
  exists b'. repeat split; assumption.
Defined.

Lemma created_booking_is_never_reminded_witness :
  createBooking (studio twilioUp) 1000 intakeSms world0
  = (Ok (js "https://checkout.paystack.com/xxx"), afterBooking)
  ∧ ∃ b,
      bookings (deliverAll (studio twilioUp) [charge newId] afterBooking)
      !! autoId (studio twilioUp) (bookings world0) = Some b
      ∧ due 999999 b = false.
Proof.
  split; [exact afterBooking_run|].
  destruct (created_booking_is_never_reminded (studio twilioUp) 1000
              intakeSms world0 _ _ [charge newId] 999999 afterBooking_run)
    as (b & H1 & _ & _ & H4 & _).
  exists b. split; assumption.
Defined.

Lemma nothing_due_early :
  ∀ id b, bookings world0 !! id = Some b → due 100 b = false.
Proof.
  intros id b Hb. unfold world0 in Hb. cbn [bookings] in Hb.
  apply lookup_insert_Some in Hb as [[_ <-]|[_ Hb]]; [reflexivity|].
  apply lookup_singleton_Some in Hb as [_ <-]. reflexivity.
Qed.

Lemma sweep_without_due_bookings_is_a_noop_witness :
  (∀ id b, bookings world0 !! id = Some b → due 100 b = false)
  ∧ sendFiveHourReminders (studio twilioUp) 100 world0 = (Ok tt, world0).
Proof.
  split; [exact nothing_due_early|].
  exact (sweep_without_due_bookings_is_a_noop (studio twilioUp) 100 world0
           nothing_due_early).
Defined.

Lemma sweep_only_marks_due_bookings_witness :
  bookings world0 !! b2 = Some lerato
  ∧ (bookings (sendFiveHourReminders (studio twilioDown) 6000 world0).2
     !! b2 = Some lerato
     ∨ (due 6000 lerato = true
        ∧ bookings (sendFiveHourReminders (studio twilioDown) 6000 world0).2
          !! b2 = Some (Booking.markReminded lerato))).
Proof.
  split; [reflexivity|].
  exact (proj2 (sweep_only_marks_due_bookings (studio twilioDown) 6000
                  world0) b2 lerato eq_refl).
Defined.

Lemma chargeJson_valid twilio id :
  id ≠ [] → reference id = Ok (InBookings id) →
  validChargeJson (studio twilio) serialize (chargeJson id) id 85000.
Proof. intros Hne Hid. repeat split; done. Qed.

Lemma part002_payment_recorded_whatever_twilio_answers_witness :
  validChargeJson (studio twilioDown) serialize (chargeJson b1) b1 85000
  ∧ bookings world0 !! b1 = Some thandi
  ∧ Booking.isPaid thandi = false
  ∧ (Part002.paystackWebhook (studio twilioDown) serialize (chargeJson b1)
       world0).1 = 200
  ∧ bookings
      (Part002.paystackWebhook (studio twilioDown) serialize
         (chargeJson b1) world0).2 !! b1
    = Some (Booking.markPaid 85000 thandi).
Proof.
  assert (Hv : validChargeJson (studio twilioDown) serialize (chargeJson b1)
                 b1 85000) by (by apply chargeJson_valid).
  split; [exact Hv|]. split; [reflexivity|]. split; [reflexivity|].
  rewrite (part002_payment_recorded_whatever_twilio_answers
             (studio twilioDown) serialize (chargeJson b1) b1 85000 thandi
             world0 Hv eq_refl eq_refl).
  split; [reflexivity|]. cbn [snd bookings written].
  apply lookup_insert_eq.
Defined.

Lemma part002_unknown_booking_is_an_error_witness :
  validChargeJson (studio twilioUp) serialize (chargeJson (js "nope"))
    (js "nope") 85000
  ∧ bookings world0 !! js "nope" = None
  ∧ Part002.paystackWebhook (studio twilioUp) serialize
      (chargeJson (js "nope")) world0 = (500, world0).
Proof.
  assert (Hv : validChargeJson (studio twilioUp) serialize
                 (chargeJson (js "nope")) (js "nope") 85000)
    by (by apply chargeJson_valid).
  split; [exact Hv|]. split; [reflexivity|].
  exact (proj1 (part002_unknown_booking_is_an_error (studio twilioUp)
                  serialize (chargeJson (js "nope")) (js "nope") 85000
                  world0 Hv) eq_refl).
Defined.

Lemma part002_sweep_marks_even_when_twilio_fails_witness :
  bookings (Part002.world studio1) !! b2 = Some lerato
  ∧ bookings (Part002.world studio1) !! b3 = Some sipho
  ∧ due 6000 lerato = true
  ∧ due 6000 sipho = true
  ∧ Booking.method sipho = None
  ∧ twilioCreate (studio twilioDown) []
      (whatsAppMessage (Booking.clientPhone lerato)
         (Part002.reminderMessage lerato))
    = Throw (Error (js "ETIMEDOUT"))
  ∧ bookings
      (Part002.world
         (Part002.sendFiveHourReminders (studio twilioDown) 6000 studio1))
    !! b2 = Some (Booking.markReminded lerato)
  ∧ bookings
      (Part002.world
         (Part002.sendFiveHourReminders (studio twilioDown) 6000 studio1))
    !! b3 = Some sipho.
Proof.
  do 6 (split; [reflexivity|]).
  pose proof (proj1 (part002_sweep_marks_even_when_twilio_fails
                       (studio twilioDown) 6000 studio1)) as H.
  split.
  - exact (proj1 (H b2 lerato eq_refl eq_refl)).
  - exact (proj1 (H b3 sipho eq_refl eq_refl)).
Defined.

Example part002_sweep_logs_only_with_method :
  Part002.logBookingId
    <$> Part002.reminderLogs
          (Part002.sendFiveHourReminders (studio twilioUp) 6000 studio1)
  = [b2].
Proof. vm_compute. reflexivity. Qed.

Example part003_complete_request_is_refused :
  Part003.createBooking (studio twilioUp) 1000
    {| Part003.data := intakeSms |} world0
  = (Throw (Error (js "Could not start payment")), world0).
Proof. vm_compute. reflexivity. Qed.

Lemma part003_single_attempt_decides_the_payment_witness :
  validChargeJson (studio twilioDown) serialize (chargeJson b1) b1 85000
  ∧ bookings world0 !! b1 = Some thandi
  ∧ Booking.isPaid thandi = false
  ∧ (Part003.paystackWebhook (studio twilioDown) serialize (chargeJson b1)
       world0).1 = 500
  ∧ attemptsMade
      (trace
         (Part003.paystackWebhook (studio twilioDown) serialize
            (chargeJson b1) world0).2) = 1%nat.
Proof.
  assert (Hv : validChargeJson (studio twilioDown) serialize (chargeJson b1)
                 b1 85000) by (by apply chargeJson_valid).
  split; [exact Hv|]. split; [reflexivity|]. split; [reflexivity|].
  rewrite (proj1 (part003_single_attempt_decides_the_payment
                    (studio twilioDown) serialize (chargeJson b1) b1 85000
                    thandi world0 Hv eq_refl eq_refl)).
  split; reflexivity.
Defined.

Lemma sendSMS_relay_witness :
  (Js.truthy None = false ∨ Js.truthy (Some (js "hi")) = false)
  ∧ SmsServer.sendSMS (studio twilioUp) (js "+15005550006") None
      (Some (js "hi")) world0
    = ({| SmsServer.status := 400; SmsServer.success := false |}, world0).
Proof.
  assert (H : Js.truthy None = false ∨ Js.truthy (Some (js "hi")) = false)
    by (left; reflexivity).
  split; [exact H|].
  exact (proj1 (proj2 (proj2 (proj2
           (sendSMS_relay (studio twilioUp) (js "+15005550006") None
              (Some (js "hi")) world0)))) H).
Defined.

Example relay_sends_with_a_plus :
  trace (SmsServer.sendSMS (studio twilioUp) (js "+15005550006")
           (Some (js "27821234567")) (Some (js "hi")) world0).2
  = [MessageCreate
       {| Message.body := js "hi";
          Message.from := js "+15005550006";
          Message.to := js "+27821234567" |}
       (Ok (js "SM0001"))].
Proof. vm_compute. reflexivity. Qed.
